(** * Verification of the ETL / anomaly-detection / persistence pipeline
    of ai_detection_app (src/app/etl.py, src/app/ml_model.py,
    src/app/db_operations.py).

    Modelling conventions.
    - Python strings are modelled as [String.string] (ASCII characters);
      [str.split()] / [str.strip()] whitespace is Python's ASCII whitespace
      (codes 9-13 and 28-32), [str.upper()] maps a-z to A-Z.
    - Python floats are [pyfloat]: a finite value as an exact rational,
      the two infinities and NaN (binary rounding is not modelled).
      A pandas float column stores a missing value as NaN. *)

From Stdlib Require Import QArith Qround Qabs Ascii String List Bool ZArith Lia Sorted Lqa.
From stdpp Require Import base gmap strings.
From Stdlib Require Import Reals Lra.
Import ListNotations.
Open Scope string_scope.
Set Warnings "-register-all".

(* ------------------------------------------------------------------ *)
(** ** Python values *)

Inductive pyfloat :=
| PF (q : Q)
| PInf (neg : bool)
| PNaN.

(** Timestamps (pandas [Timestamp]); [pd.Timestamp('2000-01-01')] is
    [mkTs 2000 1 1 0 0 0]. *)
Record Timestamp := mkTs {
  ts_year : Z; ts_month : Z; ts_day : Z;
  ts_hour : Z; ts_minute : Z; ts_second : Z }.

(** A dynamically typed Python value, as stored in a pandas cell. *)
Inductive pyval :=
| VNone
| VStr (s : string)
| VFloat (f : pyfloat)
| VInt (z : Z)
| VBool (b : bool)
| VTs (t : Timestamp).

(** [pd.isna] *)
Definition pd_isna (v : pyval) : bool :=
  match v with
  | VNone | VFloat PNaN => true
  | _ => false
  end.

(* ------------------------------------------------------------------ *)
(** ** String primitives *)

(** [str.isspace] on one character (ASCII part). *)
Definition py_isspace (c : ascii) : bool :=
  let n := nat_of_ascii c in
  (Nat.leb 9 n && Nat.leb n 13) || (Nat.leb 28 n && Nat.leb n 32).

(** [''.join(s.split())]: every whitespace character removed. *)
Fixpoint remove_ws (s : string) : string :=
  match s with
  | EmptyString => EmptyString
  | String c r => if py_isspace c then remove_ws r else String c (remove_ws r)
  end.

Definition ascii_upper (c : ascii) : ascii :=
  let n := nat_of_ascii c in
  if Nat.leb 97 n && Nat.leb n 122 then ascii_of_nat (n - 32)%nat else c.

(** [str.upper] *)
Fixpoint py_upper (s : string) : string :=
  match s with
  | EmptyString => EmptyString
  | String c r => String (ascii_upper c) (py_upper r)
  end.

Fixpoint lstrip (s : string) : string :=
  match s with
  | String c r => if py_isspace c then lstrip r else s
  | EmptyString => EmptyString
  end.

Definition rev_str (s : string) : string := string_of_list_ascii (rev (list_ascii_of_string s)).

(** [str.strip] *)
Definition py_strip (s : string) : string := rev_str (lstrip (rev_str (lstrip s))).

(** [str(x).strip() == ''] for a string [x]: the string is blank. *)
Definition is_blank (s : string) : bool := String.eqb (py_strip s) "".

(* ------------------------------------------------------------------ *)
(** ** etl.py: clean_rib *)

(** [clean_rib(rib)] (etl.py, lines 9-17). *)
Definition clean_rib (rib : pyval) : string :=
  match rib with
  | VStr s =>
      let rib_cleaned := py_upper (remove_ws s) in
      if String.eqb rib_cleaned "" then "" else rib_cleaned
  | _ => ""   (* pd.isna(rib) or not isinstance(rib, str) *)
  end.

(* ------------------------------------------------------------------ *)
(** ** Python's [float(str)] *)

Definition is_digit (c : ascii) : bool :=
  Nat.leb 48 (nat_of_ascii c) && Nat.leb (nat_of_ascii c) 57.

Definition digit_val (c : ascii) : Z := Z.of_nat (nat_of_ascii c - 48).

(** Rest of a digit part after its first digit: [(['_'] digit)*]; the
    accumulator is the value read so far and the number of digits. *)
Fixpoint digits_rest (l : list ascii) (acc : Z) (k : nat) : Z * nat * list ascii :=
  match l with
  | c :: r =>
      if is_digit c then digits_rest r (acc * 10 + digit_val c)%Z (S k)
      else if Ascii.eqb c "_"%char then
        match r with
        | d :: r' => if is_digit d then digits_rest r' (acc * 10 + digit_val d)%Z (S k)
                     else (acc, k, l)
        | [] => (acc, k, l)
        end
      else (acc, k, l)
  | [] => (acc, k, l)
  end.

(** A digit part [digit (['_'] digit)*]: its value, its number of digits
    and the remaining input. *)
Definition digit_part (l : list ascii) : option (Z * nat * list ascii) :=
  match l with
  | c :: r => if is_digit c then Some (digits_rest r (digit_val c) 1) else None
  | [] => None
  end.

(** Mantissa of a decimal literal, [digitpart ['.' [digitpart]] | '.' digitpart]:
    the digits as one integer, the number of fraction digits, the rest. *)
Definition mantissa (l : list ascii) : option (Z * nat * list ascii) :=
  match digit_part l with
  | Some (ip, _, r) =>
      match r with
      | c :: r' =>
          if Ascii.eqb c "."%char then
            match digit_part r' with
            | Some (fp, k, r'') => Some ((ip * 10 ^ Z.of_nat k + fp)%Z, k, r'')
            | None => Some (ip, O, r')
            end
          else Some (ip, O, r)
      | [] => Some (ip, O, r)
      end
  | None =>
      match l with
      | c :: r' =>
          if Ascii.eqb c "."%char then
            match digit_part r' with
            | Some (fp, k, r'') => Some (fp, k, r'')
            | None => None
            end
          else None
      | [] => None
      end
  end.

(** Optional sign: [true] for '-'. *)
Definition read_sign (l : list ascii) : bool * list ascii :=
  match l with
  | c :: r =>
      if Ascii.eqb c "-"%char then (true, r)
      else if Ascii.eqb c "+"%char then (false, r) else (false, l)
  | [] => (false, l)
  end.

(** Optional exponent [('e'|'E') [sign] digitpart] followed by end of input. *)
Definition exponent (l : list ascii) : option Z :=
  match l with
  | [] => Some 0%Z
  | c :: r =>
      if Ascii.eqb c "e"%char || Ascii.eqb c "E"%char then
        let '(neg, r') := read_sign r in
        match digit_part r' with
        | Some (e, _, []) => Some (if neg then - e else e)%Z
        | _ => None
        end
      else None
  end.

Definition pow10_Q (e : Z) : Q :=
  if (0 <=? e)%Z then inject_Z (10 ^ e) else 1 # Z.to_pos (10 ^ (- e)).

Definition ascii_lower (c : ascii) : ascii :=
  let n := nat_of_ascii c in
  if Nat.leb 65 n && Nat.leb n 90 then ascii_of_nat (n + 32)%nat else c.

Definition lower_list (l : list ascii) : list ascii := map ascii_lower l.

(** [float(s)] for a string [s]; [None] is a [ValueError]. *)
Definition py_float_str (s : string) : option pyfloat :=
  let l := list_ascii_of_string (py_strip s) in
  let '(neg, body) := read_sign l in
  let w := string_of_list_ascii (lower_list body) in
  if String.eqb w "inf" || String.eqb w "infinity" then Some (PInf neg)
  else if String.eqb w "nan" then Some PNaN
  else
    match mantissa body with
    | Some (m, k, r) =>
        match exponent r with
        | Some e =>
            let q := (inject_Z m * pow10_Q (e - Z.of_nat k))%Q in
            Some (PF (if neg then (- q)%Q else q))
        | None => None
        end
    | None => None
    end.

(* ------------------------------------------------------------------ *)
(** ** ElementTree *)

Record QName := mkQName { qn_ns : string; qn_local : string }.

(** An [xml.etree.ElementTree.Element]: tag, [attrib] dict, [text],
    children in document order. *)
Inductive element :=
| El (tag : QName) (attrib : list (string * string)) (text : option string)
     (children : list element).

Definition el_tag (e : element) : QName := let '(El t _ _ _) := e in t.
Definition el_attrib (e : element) : list (string * string) := let '(El _ a _ _) := e in a.
Definition el_text (e : element) : option string := let '(El _ _ x _) := e in x.
Definition el_children (e : element) : list element := let '(El _ _ _ c) := e in c.

(** [elem.iter()] minus [elem] itself: descendants in document order. *)
Fixpoint descendants (e : element) : list element :=
  let '(El _ _ _ cs) := e in
  (fix go (cs : list element) : list element :=
     match cs with
     | [] => []
     | c :: cs' => c :: descendants c ++ go cs'
     end) cs.

(** One step of an ElementPath expression: ["ns:X"] (children) or
    [".//ns:X"] (descendants). *)
Inductive step := Child (t : QName) | Desc (t : QName).

Definition qn_eqb (a b : QName) : bool :=
  String.eqb (qn_ns a) (qn_ns b) && String.eqb (qn_local a) (qn_local b).

Definition select_step (st : step) (ctx : list element) : list element :=
  match st with
  | Child t => flat_map (fun e => List.filter (fun c => qn_eqb (el_tag c) t) (el_children e)) ctx
  | Desc t => flat_map (fun e => List.filter (fun c => qn_eqb (el_tag c) t) (descendants e)) ctx
  end.

(** [elem.findall(path)] *)
Definition findall (e : element) (path : list step) : list element :=
  fold_left (fun ctx st => select_step st ctx) path [e].

(** [elem.find(path)] *)
Definition find (e : element) (path : list step) : option element :=
  head (findall e path).

Definition assoc_get (k : string) (l : list (string * string)) : option string :=
  option_map snd (List.find (fun kv => String.eqb (fst kv) k) l).

(** The [ns] prefix of etl.py. *)
Definition NS : string := "urn:iso:std:iso:20022:tech:xsd:pacs.008.001.08".
Definition ns (local : string) : QName := mkQName NS local.

(** [get_text(element, xpath, ns)] (etl.py, lines 19-25). *)
Definition get_text (element : option element) (xpath : list step) : option string :=
  match element with
  | None => None
  | Some e =>
      match find e xpath with
      | Some found =>
          match el_text found with
          | Some t => if String.eqb t "" then None else Some (py_strip t)
          | None => None
          end
      | None => None
      end
  end.

(* ------------------------------------------------------------------ *)
(** ** etl.py: extract_transactions *)

(** One transaction dict built by [extract_transactions]. *)
Record RawTx := mkRawTx {
  message_id : option string;
  transaction_id : option string;
  instruction_id : option string;
  end_to_end_id : option string;
  clearing_system_ref : option string;
  amount : option pyfloat;
  currency : option string;
  creation_date : option string;
  acceptance_datetime : option string;
  debtor_name : option string;
  debtor_birth_date : option string;
  debtor_birth_city : option string;
  debtor_birth_country : option string;
  debtor_account : option string;
  creditor_name : option string;
  creditor_account : option string;
  service_level_code : option string;
  local_instrument : option string;
  category_purpose : option string;
  charge_bearer : option string;
  debtor_bic : option string;
  creditor_bic : option string;
  debtor_member_id : option string;
  creditor_member_id : option string }.

Definition get_birth_date (dbtr : option element) : option string :=
  get_text dbtr [Desc (ns "DtAndPlcOfBirth"); Child (ns "BirthDt")].
Definition get_birth_city (dbtr : option element) : option string :=
  get_text dbtr [Desc (ns "DtAndPlcOfBirth"); Child (ns "CityOfBirth")].
Definition get_birth_country (dbtr : option element) : option string :=
  get_text dbtr [Desc (ns "DtAndPlcOfBirth"); Child (ns "CtryOfBirth")].

Definition get_account_id (acct : option element) : option string :=
  match acct with
  | None => None
  | Some _ =>
      match get_text acct [Desc (ns "Othr"); Child (ns "Id")] with
      | Some account_id => if String.eqb account_id "" then None else Some account_id
      | None => None
      end
  end.

Definition get_service_level_code (p : option element) : option string :=
  match p with None => None | Some _ => get_text p [Child (ns "SvcLvl"); Child (ns "Cd")] end.
Definition get_local_instrument (p : option element) : option string :=
  match p with None => None | Some _ => get_text p [Child (ns "LclInstrm"); Child (ns "Prtry")] end.
Definition get_category_purpose (p : option element) : option string :=
  match p with None => None | Some _ => get_text p [Child (ns "CtgyPurp"); Child (ns "Prtry")] end.
Definition get_bic (agent : option element) : option string :=
  match agent with None => None | Some _ => get_text agent [Desc (ns "BICFI")] end.
Definition get_member_id (agent : option element) : option string :=
  match agent with
  | None => None
  | Some _ => get_text agent [Desc (ns "ClrSysMmbId"); Child (ns "MmbId")]
  end.

(** etl.py, lines 99-107: amount and currency from [IntrBkSttlmAmt].
    [currency] is assigned after [float(...)] inside the [try]; a
    [ValueError] leaves it at [None]. *)
Definition read_amount (tx : element) : option pyfloat * option string :=
  match find tx [Desc (ns "IntrBkSttlmAmt")] with
  | Some amount_elem =>
      match el_text amount_elem with
      | Some t =>
          if String.eqb t "" then (None, None)
          else match py_float_str t with
               | Some a => (Some a, assoc_get "Ccy" (el_attrib amount_elem))
               | None => (None, None)
               end
      | None => (None, None)
      end
  | None => (None, None)
  end.

(** The dict built for one [CdtTrfTxInf] node (etl.py, lines 90-134). *)
Definition extract_one (grp_hdr : option element) (message_id : option string)
    (tx : element) : RawTx :=
  let pmt_id := find tx [Child (ns "PmtId")] in
  let pmt_tp_inf := find tx [Child (ns "PmtTpInf")] in
  let dbtr := find tx [Child (ns "Dbtr")] in
  let cdtr := find tx [Child (ns "Cdtr")] in
  let dbtr_acct := find tx [Child (ns "DbtrAcct")] in
  let cdtr_acct := find tx [Child (ns "CdtrAcct")] in
  let dbtr_agt := find tx [Child (ns "DbtrAgt")] in
  let cdtr_agt := find tx [Child (ns "CdtrAgt")] in
  let '(amt, ccy) := read_amount tx in
  {| message_id := message_id;
     transaction_id := get_text (Some tx) [Desc (ns "TxId")];
     instruction_id := get_text pmt_id [Child (ns "InstrId")];
     end_to_end_id := get_text pmt_id [Child (ns "EndToEndId")];
     clearing_system_ref := get_text pmt_id [Child (ns "ClrSysRef")];
     amount := amt;
     currency := ccy;
     creation_date := get_text grp_hdr [Child (ns "CreDtTm")];
     acceptance_datetime := get_text (Some tx) [Desc (ns "AccptncDtTm")];
     debtor_name := get_text dbtr [Child (ns "Nm")];
     debtor_birth_date := get_birth_date dbtr;
     debtor_birth_city := get_birth_city dbtr;
     debtor_birth_country := get_birth_country dbtr;
     debtor_account := get_account_id dbtr_acct;
     creditor_name := get_text cdtr [Child (ns "Nm")];
     creditor_account := get_account_id cdtr_acct;
     service_level_code := get_service_level_code pmt_tp_inf;
     local_instrument := get_local_instrument pmt_tp_inf;
     category_purpose := get_category_purpose pmt_tp_inf;
     charge_bearer := get_text (Some tx) [Child (ns "ChrgBr")];
     debtor_bic := get_bic dbtr_agt;
     creditor_bic := get_bic cdtr_agt;
     debtor_member_id := get_member_id dbtr_agt;
     creditor_member_id := get_member_id cdtr_agt |}.

(** [extract_transactions(xml_content)] on the tree that [ET.fromstring]
    returns (etl.py, lines 80-137); XML parsing itself is the library's. *)
Definition extract_transactions (root : element) : list RawTx :=
  let grp_hdr := find root [Desc (ns "GrpHdr")] in
  let message_id := get_text grp_hdr [Child (ns "MsgId")] in
  map (extract_one grp_hdr message_id) (findall root [Desc (ns "CdtTrfTxInf")]).

(* ------------------------------------------------------------------ *)
(** ** Float operations used by the pipeline *)

(** [abs] on a float. *)
Definition pf_abs (x : pyfloat) : pyfloat :=
  match x with
  | PF q => PF (Qabs q)
  | PInf _ => PInf false
  | PNaN => PNaN
  end.

(** Round half to even of a rational to an integer. *)
Definition round_half_even (q : Q) : Z :=
  let f := Qfloor q in
  let d := (q - inject_Z f)%Q in
  if Qlt_le_dec d (1 # 2) then f
  else if Qeq_dec d (1 # 2) then (if Z.even f then f else f + 1)%Z
  else (f + 1)%Z.

(** [round(x, 2)] on a float. *)
Definition pf_round2 (x : pyfloat) : pyfloat :=
  match x with
  | PF q => PF (round_half_even (q * 100) # 100)
  | other => other
  end.

(** A cell of a pandas float64 column: a missing value is NaN. *)
Definition to_float64 (v : option pyfloat) : pyfloat :=
  match v with Some f => f | None => PNaN end.

(* ------------------------------------------------------------------ *)
(** ** etl.py: transform_data *)

(** One row of the DataFrame returned by [transform_data]. *)
Record CanonTx := mkCanonTx {
  c_message_id : option string;
  c_transaction_id : option string;
  c_instruction_id : option string;
  c_end_to_end_id : option string;
  c_clearing_system_ref : option string;
  c_amount : pyfloat;
  c_currency : string;
  c_creation_date : Timestamp;
  c_acceptance_datetime : Timestamp;
  c_debtor_name : string;
  c_debtor_birth_date : option string;
  c_debtor_birth_city : option string;
  c_debtor_birth_country : option string;
  c_debtor_account : string;
  c_creditor_name : string;
  c_creditor_account : string;
  c_service_level_code : option string;
  c_local_instrument : option string;
  c_category_purpose : option string;
  c_charge_bearer : option string;
  c_debtor_bic : option string;
  c_creditor_bic : option string;
  c_debtor_member_id : option string;
  c_creditor_member_id : option string;
  c_amount_log : pyfloat }.

(** [pd.Timestamp('2000-01-01')] *)
Definition default_ts : Timestamp := mkTs 2000 1 1 0 0 0.

(** [.fillna(...)] then [.apply(lambda x: d if pd.isna(x) or str(x).strip() == '' else x)] *)
Definition fill_blank (d : string) (v : option string) : string :=
  match v with
  | None => d
  | Some s => if is_blank s then d else s
  end.

Section Transform.

(** [pd.to_datetime(col, errors='coerce')] evaluated on one cell: pandas
    infers the format from the whole column, so the parser sees the
    column; [None] is [NaT]. *)
Variable to_datetime : list (option string) -> string -> option Timestamp.

(** [pd.to_datetime(df[col], errors='coerce').fillna(pd.Timestamp('2000-01-01'))] *)
Definition parse_date_cell (col : list (option string)) (v : option string) : Timestamp :=
  match v with
  | Some s => match to_datetime col s with Some t => t | None => default_ts end
  | None => default_ts
  end.

Definition transform_row (cd_col ad_col : list (option string)) (x : RawTx) : CanonTx :=
  let amt := pf_abs (to_float64 (amount x)) in
  {| c_message_id := message_id x;
     c_transaction_id := transaction_id x;
     c_instruction_id := instruction_id x;
     c_end_to_end_id := end_to_end_id x;
     c_clearing_system_ref := clearing_system_ref x;
     c_amount := amt;
     c_currency := fill_blank "MAD" (currency x);
     c_creation_date := parse_date_cell cd_col (creation_date x);
     c_acceptance_datetime := parse_date_cell ad_col (acceptance_datetime x);
     c_debtor_name := fill_blank "UNKNOWN" (debtor_name x);
     c_debtor_birth_date := debtor_birth_date x;
     c_debtor_birth_city := debtor_birth_city x;
     c_debtor_birth_country := debtor_birth_country x;
     c_debtor_account :=
       clean_rib (VStr (match debtor_account x with Some s => s | None => "" end));
     c_creditor_name := fill_blank "UNKNOWN" (creditor_name x);
     c_creditor_account :=
       clean_rib (VStr (match creditor_account x with Some s => s | None => "" end));
     c_service_level_code := service_level_code x;
     c_local_instrument := local_instrument x;
     c_category_purpose := category_purpose x;
     c_charge_bearer := charge_bearer x;
     c_debtor_bic := debtor_bic x;
     c_creditor_bic := creditor_bic x;
     c_debtor_member_id := debtor_member_id x;
     c_creditor_member_id := creditor_member_id x;
     c_amount_log := pf_round2 amt |}.

(** [transform_data(transactions)] (etl.py, lines 143-179); [None] is the
    re-raised [ValueError].
    - [pd.DataFrame([])] has no columns: every step is skipped.
    - An [amount] column holding only [None] has dtype object, and
      [.abs()] raises [TypeError] on [None]; otherwise the column is
      float64 with NaN for [None]. *)
Definition transform_data (transactions : list RawTx) : option (list CanonTx) :=
  match transactions with
  | [] => Some []
  | _ =>
      if forallb (fun x => match amount x with None => true | Some _ => false end) transactions
      then None
      else
        let cd_col := map creation_date transactions in
        let ad_col := map acceptance_datetime transactions in
        Some (map (transform_row cd_col ad_col) transactions)
  end.

End Transform.

(* ------------------------------------------------------------------ *)
(** ** ml_model.py: detect_anomalies *)

(** A row of the DataFrame returned by [detect_anomalies]. *)
Record ScoredTx := mkScoredTx {
  s_tx : CanonTx;
  anomaly_score : pyfloat;
  is_anomaly : Z }.

Section Detector.

(** [IsolationForest(n_estimators=100, contamination=0.01, random_state=42)]
    fitted on the feature matrix and then asked for [decision_function]
    and [predict] on the same matrix (sklearn). *)
Variable decision_function : list (pyfloat * pyfloat) -> list Q.
Variable predict : list (pyfloat * pyfloat) -> list Z.

(** One row of [df[['amount', 'amount_log']]]. *)
Definition features (r : CanonTx) : pyfloat * pyfloat := (c_amount r, c_amount_log r).

(** [lambda x: 1 if x == -1 else 0] *)
Definition label_to_flag (x : Z) : Z := if Z.eqb x (-1) then 1%Z else 0%Z.

Definition score_row (r : CanonTx) (sc : Q) (lb : Z) : ScoredTx :=
  {| s_tx := r; anomaly_score := PF sc; is_anomaly := label_to_flag lb |}.

(** [detect_anomalies(df)] (ml_model.py, lines 36-58); [None] is the
    raised [ValueError].  The frame from [transform_data] always has
    [amount_log], so the [np.log1p] branch is not taken; an empty frame
    has no [amount] column.  The feature values are passed to the forest
    unchecked; pandas refuses a result column of the wrong length. *)
Definition detect_anomalies (df : list CanonTx) : option (list ScoredTx) :=
  match df with
  | [] => None
  | _ =>
      let X := map features df in
      let scores := decision_function X in
      let labels := predict X in
      if Nat.eqb (length scores) (length df) && Nat.eqb (length labels) (length df)
      then Some (zip_with (fun r sl => score_row r (fst sl) (snd sl)) df (zip scores labels))
      else None
  end.

End Detector.

(* ------------------------------------------------------------------ *)
(** ** ml_model.py: explain_anomalies *)

(** [x <= y] in the order pandas sorts floats by: NaN below every number,
    then -inf, the finite values, +inf. *)
Definition pf_le (x y : pyfloat) : bool :=
  match x, y with
  | PNaN, _ => true
  | _, PNaN => false
  | PInf true, _ => true
  | _, PInf true => false
  | _, PInf false => true
  | PInf false, _ => false
  | PF a, PF b => Qle_bool a b
  end.

Definition pf_isnan (x : pyfloat) : bool := match x with PNaN => true | _ => false end.

(** IEEE addition. *)
Definition pf_add (x y : pyfloat) : pyfloat :=
  match x, y with
  | PNaN, _ | _, PNaN => PNaN
  | PInf a, PInf b => if Bool.eqb a b then PInf a else PNaN
  | PInf a, PF _ | PF _, PInf a => PInf a
  | PF a, PF b => PF (a + b)
  end.

(** [Series.mean()] (skipna). *)
Definition pf_mean (xs : list pyfloat) : pyfloat :=
  let vs := List.filter (fun x => negb (pf_isnan x)) xs in
  match vs with
  | [] => PNaN
  | _ =>
      match fold_left pf_add vs (PF 0) with
      | PF t => PF (t / inject_Z (Z.of_nat (length vs)))
      | other => other
      end
  end.

(** [Series.max()] / [Series.min()] (skipna). *)
Definition pf_max (xs : list pyfloat) : pyfloat :=
  match List.filter (fun x => negb (pf_isnan x)) xs with
  | [] => PNaN
  | v :: vs => fold_left (fun m x => if pf_le m x then x else m) vs v
  end.
Definition pf_min (xs : list pyfloat) : pyfloat :=
  match List.filter (fun x => negb (pf_isnan x)) xs with
  | [] => PNaN
  | v :: vs => fold_left (fun m x => if pf_le x m then x else m) vs v
  end.

(** A row of a filtered frame keeps its index label. *)
Definition row_amount (r : nat * ScoredTx) : pyfloat := c_amount (s_tx (snd r)).

(** Stable descending insertion: a row goes before every row whose
    amount is not greater than its own. *)
Fixpoint insert_desc (x : nat * ScoredTx) (l : list (nat * ScoredTx)) : list (nat * ScoredTx) :=
  match l with
  | [] => [x]
  | y :: ys => if pf_le (row_amount y) (row_amount x) then x :: y :: ys else y :: insert_desc x ys
  end.

Definition sort_desc (l : list (nat * ScoredTx)) : list (nat * ScoredTx) :=
  fold_right insert_desc [] l.

(** Insertion of a row into a list sorted by [before]. *)
Fixpoint insert_by (before : nat * ScoredTx -> nat * ScoredTx -> bool) (x : nat * ScoredTx)
    (l : list (nat * ScoredTx)) : list (nat * ScoredTx) :=
  match l with
  | [] => [x]
  | y :: ys => if before x y then x :: y :: ys else y :: insert_by before x ys
  end.

Definition sort_by (before : nat * ScoredTx -> nat * ScoredTx -> bool)
    (l : list (nat * ScoredTx)) : list (nat * ScoredTx) :=
  fold_right (insert_by before) [] l.

Section NLargest.

(** The order numpy's default [quicksort] (not stable) leaves rows of
    equal amount in is not specified: [tie_rank] stands for it, rows of
    equal amount coming out by increasing rank.  For any one input, every
    order of the equal amounts is the order of some [tie_rank]. *)
Variable tie_rank : nat -> Z.

(** [x] before [y] in [sort_values(ascending=False)]: a larger amount, or
    an equal amount and a rank not greater. *)
Definition qs_before (x y : nat * ScoredTx) : bool :=
  pf_le (row_amount y) (row_amount x) &&
  (negb (pf_le (row_amount x) (row_amount y)) || Z.leb (tie_rank (fst x)) (tie_rank (fst y))).

(** [anomalies.nlargest(n, 'amount')] ([SelectNSeries.compute] of pandas):
    - when [n >= len], [sort_values(ascending=False).head(n)]: the non-NaN
      rows by amount descending with the sort's own order of equal
      amounts, then the NaN rows in index order;
    - otherwise the non-NaN rows in descending order by a stable
      [mergesort] (equal amounts in index order), then the NaN rows in
      index order, cut to [n]. *)
Definition nlargest (n : nat) (l : list (nat * ScoredTx)) : list (nat * ScoredTx) :=
  if Nat.leb (length l) n then
    firstn n (sort_by qs_before (List.filter (fun r => negb (pf_isnan (row_amount r))) l)
              ++ List.filter (fun r => pf_isnan (row_amount r)) l)
  else
    firstn n (sort_desc (List.filter (fun r => negb (pf_isnan (row_amount r))) l)
              ++ List.filter (fun r => pf_isnan (row_amount r)) l).

(** A DataFrame given to [explain_anomalies]: its column names and rows. *)
Record RFrame := mkRFrame { rf_columns : list string; rf_rows : list ScoredTx }.

Inductive AnomalyReport :=
| RError (msg : string)
| RInfo (msg : string)
| RReport (count : nat) (mean_amount max_amount min_score : pyfloat)
          (top_anomalies : list ScoredTx).

Definition required_cols : list string := ["is_anomaly"; "anomaly_score"; "amount"].

(** [str(list_of_str)] *)
Definition py_list_repr (l : list string) : string :=
  "[" ++ String.concat ", " (map (fun c => "'" ++ c ++ "'") l) ++ "]".

(** [df[df['is_anomaly'] == 1]] with the index labels of [df]. *)
Definition flagged_rows (rows : list ScoredTx) : list (nat * ScoredTx) :=
  List.filter (fun r => Z.eqb (is_anomaly (snd r)) 1) (combine (seq 0 (length rows)) rows).

(** [explain_anomalies(df)] (ml_model.py, lines 63-88).  No step of it
    can raise on such a frame, so the [except] branch is not reached. *)
Definition explain_anomalies (df : RFrame) : AnomalyReport :=
  let missing := List.filter (fun c => negb (existsb (String.eqb c) (rf_columns df))) required_cols in
  match missing with
  | _ :: _ => RError ("Colonnes manquantes: " ++ py_list_repr missing)
  | [] =>
      let anomalies := flagged_rows (rf_rows df) in
      match anomalies with
      | [] => RInfo "Aucune anomalie détectée"
      | _ =>
          let amounts := map row_amount anomalies in
          RReport (length anomalies) (pf_mean amounts) (pf_max amounts)
            (pf_min (map (fun r => anomaly_score (snd r)) anomalies))
            (map snd (nlargest 5 anomalies))
      end
  end.

End NLargest.

(* ------------------------------------------------------------------ *)
(** ** db_operations.py: save_transactions *)

(** A row of the [transactions] table. *)
Record PRow := mkPRow {
  p_id : Z;
  p_transaction_id : string;
  p_amount : pyfloat;
  p_currency : string;
  p_creation_date : option Timestamp;
  p_acceptance_datetime : option Timestamp;
  p_debtor_name : string;
  p_creditor_name : string;
  p_debtor_account : string;
  p_creditor_account : string;
  p_is_anomaly : bool;
  p_anomaly_score : pyfloat;
  p_file_type : string;
  p_processing_date : Timestamp }.

(** The table, indexed by its unique [transaction_id], and the value the
    [SERIAL] sequence gives next. *)
Record DB := mkDB { tbl : gmap string PRow; next_id : Z }.

(** A row of [df.iterrows()]: a Series indexed by column name. *)
Definition PyRow := list (string * pyval).

(** [row[k]]; [None] is a [KeyError]. *)
Definition row_getitem (row : PyRow) (k : string) : option pyval :=
  option_map snd (List.find (fun kv => String.eqb (fst kv) k) row).

(** [row.get(k, d)] *)
Definition row_get (row : PyRow) (k : string) (d : pyval) : pyval :=
  match row_getitem row k with Some v => v | None => d end.

(** The 12 query parameters built for one row (db_operations.py, lines 127-140). *)
Record Params := mkParams {
  q_transaction_id : string;
  q_amount : pyfloat;
  q_currency : string;
  q_creation_date : pyval;
  q_acceptance_datetime : pyval;
  q_debtor_name : string;
  q_creditor_name : string;
  q_debtor_account : string;
  q_creditor_account : string;
  q_is_anomaly : bool;
  q_anomaly_score : pyfloat;
  q_file_type : string }.

Fixpoint pos_digits (fuel : nat) (n : Z) (acc : string) : string :=
  match fuel with
  | O => acc
  | S f =>
      let acc' := String (ascii_of_nat (48 + Z.to_nat (n mod 10))) acc in
      if (n <? 10)%Z then acc' else pos_digits f (n / 10)%Z acc'
  end.

(** [str(int)] *)
Definition Z_repr (z : Z) : string :=
  let fuel := S (Z.to_nat (Z.log2 (Z.abs z))) in
  if (z <? 0)%Z then "-" ++ pos_digits fuel (- z)%Z "" else pos_digits fuel z "".

(** [bool(x)] *)
Definition py_bool (v : pyval) : bool :=
  match v with
  | VNone => false
  | VStr s => negb (String.eqb s "")
  | VFloat (PF q) => negb (Qeq_bool q 0)
  | VFloat _ => true
  | VInt z => negb (Z.eqb z 0)
  | VBool b => b
  | VTs _ => true
  end.

(** [float(x)]; [None] is a [TypeError] or [ValueError]. *)
Definition py_float (v : pyval) : option pyfloat :=
  match v with
  | VNone => None
  | VStr s => py_float_str s
  | VFloat f => Some f
  | VInt z => Some (PF (inject_Z z))
  | VBool b => Some (PF (if b then 1 else 0))
  | VTs _ => None
  end.

(** [s.lower()] *)
Definition py_lower (s : string) : string :=
  string_of_list_ascii (lower_list (list_ascii_of_string s)).

(** [pat in s] *)
Fixpoint str_contains (s pat : string) : bool :=
  String.prefix pat s ||
  match s with
  | EmptyString => false
  | String _ r => str_contains r pat
  end.

(** [CHECK (file_type IN ('PACS.008', 'PACS.001'))] *)
Definition file_type_ok (ft : string) : bool :=
  String.eqb ft "PACS.008" || String.eqb ft "PACS.001".

(** Round half away from zero (PostgreSQL [numeric] rounding). *)
Definition round_half_away (q : Q) : Z :=
  if Qle_bool 0 q then Qfloor (q + (1 # 2)) else - Qfloor (- q + (1 # 2)).

(** Input to [DECIMAL(p, s)]: rounded to [s] places; more than [p - s]
    integer digits, or an infinity, is a "numeric field overflow". *)
Definition numeric_in (p sc : Z) (x : pyfloat) : option pyfloat :=
  match x with
  | PF q =>
      let r := round_half_away (q * inject_Z (10 ^ sc)) in
      if (Z.abs r <? 10 ^ p)%Z then Some (PF (Qred (r # Z.to_pos (10 ^ sc)))) else None
  | PInf _ => None
  | PNaN => Some PNaN
  end.

Definition has_nul (s : string) : bool :=
  existsb (fun c => Ascii.eqb c (ascii_of_nat 0)) (list_ascii_of_string s).

(** Input to [TEXT]: a string holding NUL cannot be sent. *)
Definition text_in (s : string) : option string := if has_nul s then None else Some s.

(** Input to [VARCHAR(n)]: a longer string is an error unless the excess
    characters are all spaces, which are then cut off. *)
Definition varchar_in (n : nat) (s : string) : option string :=
  if has_nul s then None
  else if Nat.leb (String.length s) n then Some s
  else if forallb (fun c => Ascii.eqb c " "%char) (list_ascii_of_string (substring n (String.length s - n) s))
  then Some (substring 0 n s) else None.

(** [DO UPDATE SET processing_date = EXCLUDED.processing_date, amount =
    EXCLUDED.amount, debtor_account = EXCLUDED.debtor_account,
    creditor_account = EXCLUDED.creditor_account] *)
Definition conflict_update (excluded old : PRow) : PRow :=
  {| p_id := p_id old;
     p_transaction_id := p_transaction_id old;
     p_amount := p_amount excluded;
     p_currency := p_currency old;
     p_creation_date := p_creation_date old;
     p_acceptance_datetime := p_acceptance_datetime old;
     p_debtor_name := p_debtor_name old;
     p_creditor_name := p_creditor_name old;
     p_debtor_account := p_debtor_account excluded;
     p_creditor_account := p_creditor_account excluded;
     p_is_anomaly := p_is_anomaly old;
     p_anomaly_score := p_anomaly_score old;
     p_file_type := p_file_type old;
     p_processing_date := p_processing_date excluded |}.

(** [file_type = 'PACS.008' if 'pacs.008' in xml_content.lower() else 'PACS.001'] *)
Definition file_type_of (xml_content : string) : string :=
  if str_contains (py_lower xml_content) "pacs.008" then "PACS.008" else "PACS.001".

Section Persistence.

(** CPython's [repr] of a float and [str] of a pandas Timestamp. *)
Variable float_repr : pyfloat -> string.
Variable ts_repr : Timestamp -> string.
(** psycopg2's adaptation of a Python value followed by PostgreSQL's
    [TIMESTAMP] input; [None] is an error, [Some None] is SQL NULL. *)
Variable timestamp_in : pyval -> option (option Timestamp).

(** [str(x)] *)
Definition py_str (v : pyval) : string :=
  match v with
  | VNone => "None"
  | VStr s => s
  | VFloat f => float_repr f
  | VInt z => Z_repr z
  | VBool b => if b then "True" else "False"
  | VTs t => ts_repr t
  end.

(** The parameter tuple of db_operations.py, lines 127-140; [None] is a
    Python exception ([KeyError], [TypeError], [ValueError]). *)
Definition row_params (file_type : string) (row : PyRow) : option Params :=
  tid ← row_getitem row "transaction_id";
  amt_v ← row_getitem row "amount";
  amt ← py_float amt_v;
  cur ← row_getitem row "currency";
  cd ← row_getitem row "creation_date";
  ad ← row_getitem row "acceptance_datetime";
  dn ← row_getitem row "debtor_name";
  cn ← row_getitem row "creditor_name";
  sc ← py_float (row_get row "anomaly_score" (VInt 0));
  Some {| q_transaction_id := py_str tid;
          q_amount := amt;
          q_currency := py_str cur;
          q_creation_date := cd;
          q_acceptance_datetime := ad;
          q_debtor_name := py_str dn;
          q_creditor_name := py_str cn;
          q_debtor_account := py_str (row_get row "debtor_account" (VStr ""));
          q_creditor_account := py_str (row_get row "creditor_account" (VStr ""));
          q_is_anomaly := py_bool (row_get row "is_anomaly" (VBool false));
          q_anomaly_score := sc;
          q_file_type := file_type |}.

(** The row proposed by the [INSERT] (the [EXCLUDED] row): every value
    converted to its column type; [processing_date] takes its default
    [CURRENT_TIMESTAMP], the time [now] of the transaction. *)
Definition proposed_row (now : Timestamp) (id : Z) (p : Params) : option PRow :=
  tid ← varchar_in 50 (q_transaction_id p);
  amt ← numeric_in 15 2 (q_amount p);
  cur ← varchar_in 3 (q_currency p);
  cd ← timestamp_in (q_creation_date p);
  ad ← timestamp_in (q_acceptance_datetime p);
  dn ← text_in (q_debtor_name p);
  cn ← text_in (q_creditor_name p);
  da ← varchar_in 50 (q_debtor_account p);
  ca ← varchar_in 50 (q_creditor_account p);
  sc ← numeric_in 10 4 (q_anomaly_score p);
  ft ← varchar_in 10 (q_file_type p);
  if file_type_ok ft then
    Some {| p_id := id; p_transaction_id := tid; p_amount := amt; p_currency := cur;
            p_creation_date := cd; p_acceptance_datetime := ad;
            p_debtor_name := dn; p_creditor_name := cn;
            p_debtor_account := da; p_creditor_account := ca;
            p_is_anomaly := q_is_anomaly p; p_anomaly_score := sc;
            p_file_type := ft; p_processing_date := now |}
  else None.

(** One [cursor.execute(query, params)]: the [INSERT ... ON CONFLICT
    (transaction_id) DO UPDATE ...] statement. *)
Definition upsert (now : Timestamp) (p : Params) (db : DB) : option DB :=
  excluded ← proposed_row now (next_id db) p;
  let k := p_transaction_id excluded in
  Some {| tbl := match tbl db !! k with
                 | Some old => <[k := conflict_update excluded old]> (tbl db)
                 | None => <[k := excluded]> (tbl db)
                 end;
          next_id := (next_id db + 1)%Z |}.

(** The [for _, row in df.iterrows()] loop inside the open transaction. *)
Fixpoint exec_rows (now : Timestamp) (file_type : string) (df : list PyRow) (db : DB) : option DB :=
  match df with
  | [] => Some db
  | row :: rest =>
      match row_params file_type row with
      | None => None
      | Some p =>
          match upsert now p db with
          | None => None
          | Some db' => exec_rows now file_type rest db'
          end
      end
  end.

(** [save_transactions(df, xml_content)] (db_operations.py, lines 103-152):
    [conn_ok] says whether [psycopg2.connect] succeeds and [now] is the
    transaction's [CURRENT_TIMESTAMP].  The statements take effect at
    [conn.commit()]; on an exception [conn.rollback()] discards them and
    [False] is returned.  The [SERIAL] sequence is not transactional in
    PostgreSQL: the ids drawn before a rollback stay consumed, whereas the
    model returns [db] whole, [next_id] included, on failure.  Only the
    rows of the table are thus exact after a failed call; the ids of later
    rows may in PostgreSQL be larger than in the model (every upsert,
    conflicting or not, draws one id in both). *)
Definition save_transactions (conn_ok : bool) (now : Timestamp) (df : list PyRow)
    (xml_content : string) (db : DB) : bool * DB :=
  let file_type := file_type_of xml_content in
  if conn_ok then
    match exec_rows now file_type df db with
    | Some db' => (true, db')
    | None => (false, db)
    end
  else (false, db).

(** The stored value of each mutable column written by the last row of
    [df] whose key is [k] (the [id] and [now] of a proposed row do not
    affect these). *)
Fixpoint last_write (file_type : string) (df : list PyRow) (k : string)
    : option (pyfloat * string * string) :=
  match df with
  | [] => None
  | row :: rest =>
      match last_write file_type rest k with
      | Some m => Some m
      | None =>
          match row_params file_type row with
          | Some p =>
              match proposed_row default_ts 0 p with
              | Some ex =>
                  if String.eqb (p_transaction_id ex) k
                  then Some (p_amount ex, p_debtor_account ex, p_creditor_account ex)
                  else None
              | None => None
              end
          | None => None
          end
      end
  end.

End Persistence.

(** Columns the conflict clause does not touch. *)
Definition frozen_of (r : PRow) :=
  (p_id r, p_transaction_id r, p_currency r, p_creation_date r, p_acceptance_datetime r,
   p_debtor_name r, p_creditor_name r, p_is_anomaly r, p_anomaly_score r, p_file_type r).

(** Columns the conflict clause refreshes (besides [processing_date]). *)
Definition mutable_of (r : PRow) : pyfloat * string * string :=
  (p_amount r, p_debtor_account r, p_creditor_account r).

(** Sample environment: a float and a timestamp print as fixed text, and
    PostgreSQL takes a Timestamp or NULL. *)
Definition sample_float_repr (f : pyfloat) : string := "0.0".
Definition sample_ts_repr (t : Timestamp) : string := "2000-01-01 00:00:00".
Definition sample_timestamp_in (v : pyval) : option (option Timestamp) :=
  match v with VTs t => Some (Some t) | VNone => Some None | _ => None end.

(** A row of a frame from [transform_data] only: no [is_anomaly],
    [anomaly_score], [debtor_account] or [creditor_account] column. *)
Definition unscored_row (tid : string) (amt : Q) (ccy : string) : PyRow :=
  [("transaction_id", VStr tid); ("amount", VFloat (PF amt)); ("currency", VStr ccy);
   ("creation_date", VTs default_ts); ("acceptance_datetime", VTs default_ts);
   ("debtor_name", VStr "UNKNOWN"); ("creditor_name", VStr "UNKNOWN")].

(** A fully scored row. *)
Definition scored_row (tid : string) (amt : Q) (acct : string) (flag : bool) (score : Q) : PyRow :=
  (unscored_row tid amt "MAD" ++
   [("debtor_account", VStr acct); ("creditor_account", VStr acct);
    ("is_anomaly", VBool flag); ("anomaly_score", VFloat (PF score))])%list.

Definition empty_db : DB := mkDB ∅ 1.

(** The four columns [save_transactions] reads with [row.get]. *)
Definition optional_cols : list string :=
  ["debtor_account"; "creditor_account"; "is_anomaly"; "anomaly_score"].

(** The row with the four columns added at the [row.get] defaults. *)
Definition with_defaults (row : PyRow) : PyRow :=
  (row ++ [("debtor_account", VStr ""); ("creditor_account", VStr "");
           ("is_anomaly", VBool false); ("anomaly_score", VInt 0)])%list.

(** A second timestamp, for a later save. *)
Definition later_ts : Timestamp := mkTs 2024 5 1 12 0 0.

(** A batch with a repeated key, saved into an empty store. *)
Definition c3_batch : list PyRow :=
  [scored_row "T1" 12 "A" true (-1 # 10); unscored_row "T2" 5 "MAD";
   scored_row "T1" 40 "B" false 0].

Definition c3_db1 : DB :=
  snd (save_transactions sample_float_repr sample_ts_repr sample_timestamp_in true
         default_ts c3_batch "<pacs.008/>" empty_db).

Definition c3_db2 : DB :=
  snd (save_transactions sample_float_repr sample_ts_repr sample_timestamp_in true
         later_ts c3_batch "<pacs.008/>" c3_db1).

(** A batch whose second row has a currency code longer than [VARCHAR(3)]. *)
Definition c4_batch : list PyRow :=
  [scored_row "T1" 12 "A" true 0; unscored_row "T2" 5 "EURO"].

(** An extracted record with a transaction id, an amount, a currency,
    names and accounts. *)
Definition c10_raw (tid : string) (amt : Q) : RawTx :=
  mkRawTx (Some "M1") (Some tid) None None None (Some (PF amt)) (Some "EUR") None None
    (Some "ACME") None None None (Some " ma12 34 ") (Some "BOB") (Some "fr76 1") None None
    None None None None None None.


(* ------------------------------------------------------------------ *)
(** ** Predicates and sample inputs used in the statements *)

(** [x >= 0] on a float (False for NaN and -inf). *)
Definition pf_ge0 (x : pyfloat) : bool :=
  match x with
  | PF q => Qle_bool 0 q
  | PInf neg => negb neg
  | PNaN => false
  end.

(** A transaction dict with every field [None] except [amount]. *)
Definition raw_with_amount (a : option pyfloat) : RawTx :=
  mkRawTx None (Some "TX1") None None None a None None None None None None None
    None None None None None None None None None None None.

(** A date parser under which no value parses. *)
Definition no_dates (col : list (option string)) (s : string) : option Timestamp := None.

(** A transaction whose settlement amount text does not parse. *)
Definition tx_bad_amount : element :=
  El (ns "CdtTrfTxInf") [] None
     [El (ns "IntrBkSttlmAmt") [("Ccy", "EUR")] (Some "12,50") []].

Definition doc_bad_amount : element :=
  El (ns "Document") [] None [El (ns "FIToFICstmrCdtTrf") [] None [tx_bad_amount]].

(** How a transformed amount relates to the raw one. *)
Definition amount_rule (x : RawTx) (y : CanonTx) : Prop :=
  match amount x with
  | Some (PF q) => c_amount y = PF (Qabs q) /\ pf_ge0 (c_amount y) = true
  | Some (PInf _) => c_amount y = PInf false /\ pf_ge0 (c_amount y) = true
  | Some PNaN | None => c_amount y = PNaN
  end.

(** The default-filling rules of [transform_data] for one row. *)
Definition canon_defaults (to_dt : list (option string) -> string -> option Timestamp)
    (xs : list RawTx) (x : RawTx) (y : CanonTx) : Prop :=
  c_debtor_name y = fill_blank "UNKNOWN" (debtor_name x) /\
  is_blank (c_debtor_name y) = false /\
  c_creditor_name y = fill_blank "UNKNOWN" (creditor_name x) /\
  is_blank (c_creditor_name y) = false /\
  c_currency y = fill_blank "MAD" (currency x) /\
  is_blank (c_currency y) = false /\
  c_debtor_account y = match debtor_account x with Some s => py_upper (remove_ws s) | None => "" end /\
  c_creditor_account y = match creditor_account x with Some s => py_upper (remove_ws s) | None => "" end /\
  c_creation_date y =
    match creation_date x with
    | Some s => match to_dt (map creation_date xs) s with Some t => t | None => default_ts end
    | None => default_ts
    end /\
  c_acceptance_datetime y =
    match acceptance_datetime x with
    | Some s => match to_dt (map acceptance_datetime xs) s with Some t => t | None => default_ts end
    | None => default_ts
    end.

(** Row [p] comes before row [q] in a report: a strictly larger amount,
    or an equal amount and a smaller index label. *)
Definition ranked_before (p q : nat * ScoredTx) : Prop :=
  pf_le (row_amount p) (row_amount q) = false \/
  (pf_le (row_amount p) (row_amount q) = true /\
   pf_le (row_amount q) (row_amount p) = true /\ (fst p < fst q)%nat).

(** Row [p] may come before row [q] in a list by amount descending
    (NaN counting as the smallest amount). *)
Definition amount_desc (p q : nat * ScoredTx) : Prop :=
  pf_le (row_amount q) (row_amount p) = true.

(** A scored row with the given amount and flag. *)
Definition scored_sample (a : Q) (flag : Z) : ScoredTx :=
  {| s_tx := transform_row no_dates [] [] (raw_with_amount (Some (PF a)));
     anomaly_score := PF 0; is_anomaly := flag |}.

(** A flagged row with the given amount and anomaly score. *)
Definition flagged_sample (a sc : Q) : ScoredTx :=
  {| s_tx := s_tx (scored_sample a 1); anomaly_score := PF sc; is_anomaly := 1 |}.

(** Four flagged rows, the last two of equal amount. *)
Definition tied_rows : list ScoredTx :=
  [flagged_sample 2 0; flagged_sample 1 0; flagged_sample 7 (1 # 10); flagged_sample 7 (2 # 10)].

(** A tie order that puts later rows of equal amount first. *)
Definition tie_reverse (i : nat) : Z := (- Z.of_nat i)%Z.

(** A tie order that keeps rows of equal amount in index order. *)
Definition tie_index (i : nat) : Z := Z.of_nat i.

(* ------------------------------------------------------------------ *)
(** ** ml_model.py: validate_input_data *)

(** The column names of the DataFrame returned by [transform_data]: the
    keys of the extracted dicts and [amount_log]; [pd.DataFrame([])] has
    no columns. *)
Definition transform_columns (df : list CanonTx) : list string :=
  match df with
  | [] => []
  | _ => ["message_id"; "transaction_id"; "instruction_id"; "end_to_end_id";
          "clearing_system_ref"; "amount"; "currency"; "creation_date";
          "acceptance_datetime"; "debtor_name"; "debtor_birth_date";
          "debtor_birth_city"; "debtor_birth_country"; "debtor_account";
          "creditor_name"; "creditor_account"; "service_level_code";
          "local_instrument"; "category_purpose"; "charge_bearer"; "debtor_bic";
          "creditor_bic"; "debtor_member_id"; "creditor_member_id"; "amount_log"]
  end.

(** A cell of an object column holding an optional string. *)
Definition opt_val (o : option string) : pyval :=
  match o with Some v => VStr v | None => VNone end.

(** A row of the DataFrame [transform_data] returns, as [df.iterrows()]
    yields it: the columns of [transform_columns]. *)
Definition canon_row (y : CanonTx) : PyRow :=
  [("message_id", opt_val (c_message_id y)); ("transaction_id", opt_val (c_transaction_id y));
   ("instruction_id", opt_val (c_instruction_id y)); ("end_to_end_id", opt_val (c_end_to_end_id y));
   ("clearing_system_ref", opt_val (c_clearing_system_ref y)); ("amount", VFloat (c_amount y));
   ("currency", VStr (c_currency y)); ("creation_date", VTs (c_creation_date y));
   ("acceptance_datetime", VTs (c_acceptance_datetime y)); ("debtor_name", VStr (c_debtor_name y));
   ("debtor_birth_date", opt_val (c_debtor_birth_date y));
   ("debtor_birth_city", opt_val (c_debtor_birth_city y));
   ("debtor_birth_country", opt_val (c_debtor_birth_country y));
   ("debtor_account", VStr (c_debtor_account y)); ("creditor_name", VStr (c_creditor_name y));
   ("creditor_account", VStr (c_creditor_account y));
   ("service_level_code", opt_val (c_service_level_code y));
   ("local_instrument", opt_val (c_local_instrument y));
   ("category_purpose", opt_val (c_category_purpose y));
   ("charge_bearer", opt_val (c_charge_bearer y)); ("debtor_bic", opt_val (c_debtor_bic y));
   ("creditor_bic", opt_val (c_creditor_bic y)); ("debtor_member_id", opt_val (c_debtor_member_id y));
   ("creditor_member_id", opt_val (c_creditor_member_id y)); ("amount_log", VFloat (c_amount_log y))].

(** [validate_input_data(df)] (ml_model.py, lines 13-22) on a frame given
    by its column names and its [amount] column; [None] is the raised
    [ValueError]. *)
Definition validate_input_data (columns : list string) (amount_col : list pyval) : option unit :=
  let missing := List.filter (fun c => negb (existsb (String.eqb c) columns)) ["amount"] in
  match missing with
  | _ :: _ => None
  | [] => if existsb pd_isna amount_col then None else Some tt
  end.

(* ------------------------------------------------------------------ *)
(** ** main.py *)

(** The [try] block of [main()] (main.py, lines 110-117) on the tree of a
    document that passed the XSD check; [None] is the error shown. *)
Definition process_upload (to_dt : list (option string) -> string -> option Timestamp)
    (dec : list (pyfloat * pyfloat) -> list Q) (pred : list (pyfloat * pyfloat) -> list Z)
    (root : element) : option (list ScoredTx) :=
  df ← transform_data to_dt (extract_transactions root);
  detect_anomalies dec pred df.

(** The column names of the frame returned by [detect_anomalies]. *)
Definition scored_columns (df : list ScoredTx) : list string :=
  (transform_columns (map s_tx df) ++ ["anomaly_score"; "is_anomaly"])%list.

Definition scored_frame (df : list ScoredTx) : RFrame := mkRFrame (scored_columns df) df.

(** [len(df[df['is_anomaly'] == 1])]: the count in the warning banner of
    [main()] (main.py, lines 119-123). *)
Definition count_flagged (df : list ScoredTx) : nat :=
  length (List.filter (fun r => Z.eqb (is_anomaly r) 1) df).

(** What [show_anomaly_report(df)] (main.py, lines 54-70) displays. *)
Inductive ReportView :=
| ViewError (msg : string)
| ViewEmpty
| ViewStats (count : nat) (mean_amount max_amount min_score : pyfloat).

Definition show_anomaly_report (tie_rank : nat -> Z) (df : RFrame) : ReportView :=
  match explain_anomalies tie_rank df with
  | RError msg => ViewError msg
  | RInfo _ => ViewEmpty   (* report.get('count', 0) == 0 *)
  | RReport cnt mean mx mn _ => if Nat.eqb cnt 0 then ViewEmpty else ViewStats cnt mean mx mn
  end.

(** [df['is_anomaly'].sum()] (main.py, line 29). *)
Definition anomaly_sum (df : list ScoredTx) : Z := fold_right Z.add 0%Z (map is_anomaly df).

(** [df[field].replace('', np.nan).count() / len(df) * 100] for a string
    column (main.py, line 34); [None] is the [ZeroDivisionError] of an
    empty frame. *)
Definition completeness (col : list string) : option Q :=
  match length col with
  | O => None
  | n => Some (inject_Z (Z.of_nat (length (List.filter (fun s => negb (String.eqb s "")) col)))
               / inject_Z (Z.of_nat n) * 100)%Q
  end.

(* ------------------------------------------------------------------ *)
(** ** Table invariants *)

(** Every stored row sits under its own [transaction_id] with an [id]
    below the next [SERIAL] value, and no two stored rows share an [id]. *)
Definition table_wf (db : DB) : Prop :=
  (forall k r, tbl db !! k = Some r -> p_transaction_id r = k /\ (p_id r < next_id db)%Z) /\
  (forall k1 k2 r1 r2, tbl db !! k1 = Some r1 -> tbl db !! k2 = Some r2 ->
     p_id r1 = p_id r2 -> k1 = k2).

(** A character list that does not start with whitespace. *)
Definition no_lead (l : list ascii) : Prop :=
  match l with c :: _ => py_isspace c = false | [] => True end.

(** Inverts a successful [proposed_row]. *)
Ltac solve_proposed H :=
  unfold proposed_row, mbind, option_bind in H;
  repeat (case_match; simpl in *; try discriminate);
  simplify_eq; simpl; auto.


(* ------------------------------------------------------------------ *)
(** ** Further sample inputs *)

(** An account element whose identifier is padded with spaces. *)
Definition acct_padded : element :=
  El (ns "DbtrAcct") [] None
     [El (ns "Id") [] None [El (ns "Othr") [] None [El (ns "Id") [] (Some " MA64 ") []]]].

(** A transaction with a well-formed amount. *)
Definition tx_good_amount (t : string) : element :=
  El (ns "CdtTrfTxInf") [] None
     [El (ns "IntrBkSttlmAmt") [("Ccy", "EUR")] (Some t) []; acct_padded].

(** A document with a group header and two transactions. *)
Definition doc_good : element :=
  El (ns "Document") [] None
     [El (ns "FIToFICstmrCdtTrf") [] None
        [El (ns "GrpHdr") [] None
            [El (ns "MsgId") [] (Some " M1 ") [];
             El (ns "CreDtTm") [] (Some "2024-01-01T00:00:00") []];
         tx_good_amount "12.50"; tx_good_amount "7"]].

(** A detector flagging every row with a decision value of 0. *)
Definition flag_all_dec (xs : list (pyfloat * pyfloat)) : list Q := map (fun _ => 0%Q) xs.
Definition flag_all_pred (xs : list (pyfloat * pyfloat)) : list Z := map (fun _ => (-1)%Z) xs.

(** A row whose [transaction_id] is [None]. *)
Definition none_id_row (amt : Q) : PyRow :=
  ("transaction_id", VNone) :: tl (unscored_row "T0" amt "MAD").

(** A batch with one amount beyond [DECIMAL(15, 2)]. *)
Definition overflow_batch : list PyRow :=
  [unscored_row "T1" 12 "MAD"; unscored_row "T2" (inject_Z (10 ^ 13)) "MAD"].


(* ================================================================== *)
(** * Properties *)

Example clean_rib_ex1 : clean_rib (VStr " ma 12 ab ") = "MA12AB".
Proof. reflexivity. Qed.
Example clean_rib_ex2 : clean_rib VNone = "".
Proof. reflexivity. Qed.

Example py_float_ex1 : py_float_str " -1_000.50 " = Some (PF (-(100050 # 100))).
Proof. reflexivity. Qed.
Example py_float_ex2 : py_float_str "1e2" = Some (PF 100).
Proof. reflexivity. Qed.
Example py_float_ex3 : py_float_str "12,5" = None.
Proof. reflexivity. Qed.
Example py_float_ex4 : py_float_str "Infinity" = Some (PInf false).
Proof. reflexivity. Qed.
Example py_float_ex5 : py_float_str "1__0" = None.
Proof. reflexivity. Qed.
Example py_float_ex6 : py_float_str ".5" = Some (PF (5 # 10)).
Proof. reflexivity. Qed.

(** ** clean_rib *)

Lemma ascii_upper_idem (c : ascii) : ascii_upper (ascii_upper c) = ascii_upper c.
Proof. destruct c as [[] [] [] [] [] [] [] []]; reflexivity. Qed.

Lemma ascii_upper_space (c : ascii) : py_isspace (ascii_upper c) = py_isspace c.
Proof. destruct c as [[] [] [] [] [] [] [] []]; reflexivity. Qed.

Lemma py_upper_idem (s : string) : py_upper (py_upper s) = py_upper s.
Proof. induction s as [|c r IH]; simpl; [done|]. by rewrite ascii_upper_idem, IH. Qed.

Lemma remove_ws_upper (s : string) : remove_ws (py_upper s) = py_upper (remove_ws s).
Proof.
  induction s as [|c r IH]; simpl; [done|].
  rewrite ascii_upper_space. destruct (py_isspace c); simpl; by rewrite IH.
Qed.

Lemma remove_ws_idem (s : string) : remove_ws (remove_ws s) = remove_ws s.
Proof.
  induction s as [|c r IH]; simpl; [done|].
  destruct (py_isspace c) eqn:E; simpl; [done|]. by rewrite E, IH.
Qed.

(** C8: cleaning an already-cleaned account identifier is a no-op. *)
Theorem clean_rib_idempotent (x : pyval) :
  clean_rib (VStr (clean_rib x)) = clean_rib x.
Proof.
  destruct x as [| s | | | |]; try reflexivity.
  unfold clean_rib.
  destruct (String.eqb (py_upper (remove_ws s)) "") eqn:E.
  - reflexivity.
  - rewrite remove_ws_upper, remove_ws_idem, py_upper_idem, E. reflexivity.
Qed.

(** ** Transformer *)

Lemma Forall2_map_r {A B} (R : A -> B -> Prop) (f : A -> B) (xs : list A) :
  (forall x, In x xs -> R x (f x)) -> Forall2 R xs (map f xs).
Proof.
  induction xs as [|x r IH]; intros H; simpl; constructor.
  - apply H; now left.
  - apply IH; intros y Hy; apply H; now right.
Qed.

Lemma transform_data_Some to_dt (xs : list RawTx) (ys : list CanonTx) :
  transform_data to_dt xs = Some ys ->
  ys = map (transform_row to_dt (map creation_date xs) (map acceptance_datetime xs)) xs.
Proof.
  unfold transform_data. destruct xs as [|x r]; [intros H; now injection H as <-|].
  destruct (forallb _ _); [discriminate|intros H; now injection H as <-].
Qed.

Lemma transform_data_length to_dt (xs : list RawTx) (ys : list CanonTx) :
  transform_data to_dt xs = Some ys -> length ys = length xs.
Proof. intros H. apply transform_data_Some in H. subst. apply length_map. Qed.

Lemma detect_anomalies_length dec pred (ys : list CanonTx) (zs : list ScoredTx) :
  detect_anomalies dec pred ys = Some zs -> length zs = length ys.
Proof.
  unfold detect_anomalies. intros H.
  assert (Hgen : forall (df : list CanonTx) (X : list (pyfloat * pyfloat)),
    (if Nat.eqb (length (dec X)) (length df) && Nat.eqb (length (pred X)) (length df)
     then Some (zip_with (fun r sl => score_row r (fst sl) (snd sl)) df (zip (dec X) (pred X)))
     else None) = Some zs -> length zs = length df).
  { intros df X.
    destruct (Nat.eqb (length (dec X)) _) eqn:E1, (Nat.eqb (length (pred X)) _) eqn:E2;
      cbn [andb]; try discriminate.
    intros H'; injection H' as <-. apply Nat.eqb_eq in E1, E2.
    rewrite !length_zip_with. lia. }
  destruct ys as [|y r]; [discriminate|].
  exact (Hgen (y :: r) _ H).
Qed.

(** C2: no rows are dropped: the Transformer returns as many rows as it
    receives, and the Detector as many as the Transformer gives it. *)
Theorem row_count_invariance to_dt dec pred
    (xs : list RawTx) (ys : list CanonTx) (zs : list ScoredTx) :
  (transform_data to_dt xs = Some ys -> length ys = length xs) /\
  (detect_anomalies dec pred ys = Some zs -> length zs = length ys).
Proof.
  split; [apply transform_data_length | apply detect_anomalies_length].
Qed.

Lemma row_count_invariance_witness :
  exists ys zs,
    transform_data no_dates [raw_with_amount (Some (PF 100)); raw_with_amount (Some (PF (-7)))]
      = Some ys /\
    detect_anomalies (map (fun _ => 0%Q)) (map (fun _ => 1%Z)) ys = Some zs /\
    length ys = 2%nat /\ length zs = length ys.
Proof.
  eexists; eexists; split; [reflexivity|]; split; [reflexivity|]. split.
  - apply (proj1 (row_count_invariance no_dates (map (fun _ => 0%Q)) (map (fun _ => 1%Z))
              [raw_with_amount (Some (PF 100)); raw_with_amount (Some (PF (-7)))] _ [])).
    reflexivity.
  - apply (proj2 (row_count_invariance no_dates (map (fun _ => 0%Q)) (map (fun _ => 1%Z))
              [raw_with_amount (Some (PF 100)); raw_with_amount (Some (PF (-7)))] _ _)).
    reflexivity.
Defined.

(** C1 (code_bug): [transform_data] sets [amount_log] to [round(amount, 2)],
    not to [ln(1 + amount)]; for amount 100 the row carries 100, while
    [ln 101 < 100]. *)
Theorem amount_log_is_rounded_amount :
  exists r q,
    transform_data no_dates [raw_with_amount (Some (PF 100))] = Some [r] /\
    c_amount_log r = PF q /\ (q == 100)%Q /\
    (Q2R q <> ln (1 + Q2R 100))%R.
Proof.
  eexists; eexists; split; [reflexivity|]; split; [reflexivity|]; split; [reflexivity|].
  assert (Hq : forall z, Q2R (z # 1) = IZR z) by (intros z; unfold Q2R; simpl; field).
  cbn [c_amount_log transform_row pf_round2 pf_abs to_float64 amount raw_with_amount].
  replace (Qabs 100 * 100)%Q with (10000 # 1)%Q by reflexivity.
  replace (round_half_even (10000 # 1)) with 10000%Z by reflexivity.
  assert (H1 : Q2R (10000 # 100) = 100%R) by (unfold Q2R; simpl; lra).
  rewrite H1, Hq. intros Heq.
  assert (Hlt : (1 + 100 < exp 100)%R) by (apply exp_ineq1; lra).
  apply ln_increasing in Hlt; [|lra].
  rewrite ln_exp in Hlt. lra.
Qed.

Lemma fill_blank_not_blank (d : string) (v : option string) :
  is_blank d = false -> is_blank (fill_blank d v) = false.
Proof.
  intros Hd. destruct v as [s|]; simpl; [|done].
  destruct (is_blank s) eqn:E; done.
Qed.

Lemma clean_rib_str (s : string) : clean_rib (VStr s) = py_upper (remove_ws s).
Proof.
  simpl. destruct (String.eqb_spec (py_upper (remove_ws s)) "") as [E|]; [by rewrite E|done].
Qed.

(** C7: every fallback is applied: blank or missing names are "UNKNOWN",
    a blank or missing currency is "MAD" (neither is ever blank), account
    identifiers are the upper-cased, whitespace-free text or the empty
    string, and a missing or unparsable date is [2000-01-01]. *)
Theorem transform_default_filling to_dt (xs : list RawTx) (ys : list CanonTx) :
  transform_data to_dt xs = Some ys -> Forall2 (canon_defaults to_dt xs) xs ys.
Proof.
  intros H. apply transform_data_Some in H. subst ys.
  apply Forall2_map_r. intros x _.
  unfold canon_defaults, transform_row; cbn [c_debtor_name c_creditor_name c_currency
    c_debtor_account c_creditor_account c_creation_date c_acceptance_datetime].
  repeat split; try (apply fill_blank_not_blank; reflexivity).
  - destruct (debtor_account x); [apply clean_rib_str | reflexivity].
  - destruct (creditor_account x); [apply clean_rib_str | reflexivity].
Qed.

Lemma transform_default_filling_witness :
  exists ys,
    transform_data no_dates [raw_with_amount (Some (PF 3)); raw_with_amount None] = Some ys /\
    Forall2 (canon_defaults no_dates [raw_with_amount (Some (PF 3)); raw_with_amount None])
      [raw_with_amount (Some (PF 3)); raw_with_amount None] ys.
Proof.
  eexists; split; [reflexivity|].
  apply (transform_default_filling no_dates). reflexivity.
Defined.

(** C6 (counterexample): a row whose raw amount is missing keeps NaN,
    which is not [>= 0]. *)
Lemma transform_amount_nan_counterexample :
  exists r1 r2,
    transform_data no_dates [raw_with_amount (Some (PF 5)); raw_with_amount None]
      = Some [r1; r2] /\
    c_amount r2 = PNaN /\ pf_ge0 (c_amount r2) = false.
Proof. do 2 eexists; split; [reflexivity|]; split; reflexivity. Qed.

(** C6 (amended): for every output row whose raw amount is a number of
    either sign, the transformed amount is its absolute value and is
    non-negative; a missing or NaN raw amount gives NaN. *)
Theorem transform_amount_nonneg to_dt (xs : list RawTx) (ys : list CanonTx) :
  transform_data to_dt xs = Some ys -> Forall2 amount_rule xs ys.
Proof.
  intros H. apply transform_data_Some in H. subst ys.
  apply Forall2_map_r. intros x _.
  unfold amount_rule, transform_row; cbn [c_amount].
  destruct (amount x) as [[q|neg|]|]; simpl; try split; try reflexivity.
  apply Qle_bool_iff, Qabs_nonneg.
Qed.

Lemma transform_amount_nonneg_witness :
  exists ys,
    transform_data no_dates [raw_with_amount (Some (PF (-5))); raw_with_amount None] = Some ys /\
    Forall2 amount_rule [raw_with_amount (Some (PF (-5))); raw_with_amount None] ys.
Proof.
  eexists; split; [reflexivity|].
  apply (transform_amount_nonneg no_dates). reflexivity.
Defined.

(** ** Extractor *)

(** C5 (counterexample): the amount text "12,50" does not parse, and the
    extracted record has no currency although [Ccy="EUR"] is present. *)
Lemma currency_dropped_on_bad_amount :
  exists r,
    extract_transactions doc_bad_amount = [r] /\
    amount r = None /\ currency r = None /\
    option_map (fun e => assoc_get "Ccy" (el_attrib e))
      (find tx_bad_amount [Desc (ns "IntrBkSttlmAmt")]) = Some (Some "EUR").
Proof. eexists; split; [reflexivity|]; repeat split; reflexivity. Qed.

(** C5 (amended): when the settlement-amount text does not parse, both
    amount and currency are null; when it parses, the currency is the
    element's [Ccy] attribute. *)
Theorem extract_amount_currency (grp_hdr : option element) (mid : option string)
    (tx ae : element) (t : string) :
  find tx [Desc (ns "IntrBkSttlmAmt")] = Some ae -> el_text ae = Some t ->
  (py_float_str t = None ->
     amount (extract_one grp_hdr mid tx) = None /\ currency (extract_one grp_hdr mid tx) = None) /\
  (forall a, py_float_str t = Some a ->
     amount (extract_one grp_hdr mid tx) = Some a /\
     currency (extract_one grp_hdr mid tx) = assoc_get "Ccy" (el_attrib ae)).
Proof.
  intros Hf Ht.
  assert (Hr : read_amount tx =
    if String.eqb t "" then (None, None)
    else match py_float_str t with
         | Some a => (Some a, assoc_get "Ccy" (el_attrib ae))
         | None => (None, None)
         end) by (unfold read_amount; rewrite Hf, Ht; reflexivity).
  unfold extract_one. rewrite Hr.
  destruct (String.eqb_spec t "") as [->|_].
  - split; [done|]. intros a Ha. discriminate Ha.
  - split; [intros -> ; done|]. intros a ->. done.
Qed.

Lemma extract_amount_currency_witness :
  amount (extract_one None None tx_bad_amount) = None /\
  currency (extract_one None None tx_bad_amount) = None.
Proof.
  apply (proj1 (extract_amount_currency None None tx_bad_amount
                  (El (ns "IntrBkSttlmAmt") [("Ccy", "EUR")] (Some "12,50") []) "12,50"
                  eq_refl eq_refl)).
  reflexivity.
Defined.

(** ** Report builder *)

Lemma pf_le_total (a b : pyfloat) : pf_le a b = true \/ pf_le b a = true.
Proof.
  destruct a as [qa|[]|], b as [qb|[]|]; simpl; auto.
  destruct (Qlt_le_dec qa qb) as [H|H].
  - left. apply Qle_bool_iff, Qlt_le_weak, H.
  - right. apply Qle_bool_iff, H.
Qed.

Lemma pf_le_trans (a b c : pyfloat) :
  pf_le a b = true -> pf_le b c = true -> pf_le a c = true.
Proof.
  destruct a as [qa|[]|], b as [qb|[]|], c as [qc|[]|]; simpl; intros H1 H2;
    try discriminate; try reflexivity.
  apply Qle_bool_iff. apply Qle_bool_iff in H1, H2. eapply Qle_trans; eauto.
Qed.

Lemma ranked_before_trans (p q r : nat * ScoredTx) :
  ranked_before p q -> ranked_before q r -> ranked_before p r.
Proof.
  unfold ranked_before.
  set (a := row_amount p); set (b := row_amount q); set (c := row_amount r).
  intros H1 H2.
  destruct (pf_le a c) eqn:Eac; [|left; reflexivity].
  destruct H1 as [H1|(H1 & H1' & Hi1)], H2 as [H2|(H2 & H2' & Hi2)].
  - exfalso. destruct (pf_le_total b c) as [X|X]; [congruence|].
    pose proof (pf_le_trans a c b Eac X). congruence.
  - exfalso. pose proof (pf_le_trans a c b Eac H2'). congruence.
  - exfalso. pose proof (pf_le_trans b a c H1' Eac). congruence.
  - right. split; [done|]. split; [eapply pf_le_trans; eauto | lia].
Qed.

Lemma in_insert_desc x l z : In z (insert_desc x l) <-> In z (x :: l).
Proof.
  induction l as [|y ys IH]; simpl; [tauto|].
  destruct (pf_le _ _); simpl; [tauto|]. rewrite IH. simpl. tauto.
Qed.

Lemma in_sort_desc l z : In z (sort_desc l) <-> In z l.
Proof.
  induction l as [|x r IH]; simpl; [tauto|]. rewrite in_insert_desc. simpl. rewrite IH. tauto.
Qed.

Lemma insert_desc_sorted x l :
  (forall y, In y l -> (fst x < fst y)%nat) -> StronglySorted ranked_before l ->
  StronglySorted ranked_before (insert_desc x l).
Proof.
  induction l as [|y ys IH]; intros Hlt Hs; simpl.
  - repeat constructor.
  - inversion Hs as [|? ? Hs' Hall]; subst.
    destruct (pf_le (row_amount y) (row_amount x)) eqn:E.
    + assert (Hxy : ranked_before x y).
      { unfold ranked_before.
        destruct (pf_le (row_amount x) (row_amount y)) eqn:E'; [right | left; done].
        split; [done|]. split; [done|]. apply Hlt. now left. }
      constructor; [exact Hs|]. constructor; [exact Hxy|].
      apply List.Forall_forall. intros z Hz. apply ranked_before_trans with y; [done|].
      eapply List.Forall_forall in Hall; eauto.
    + constructor.
      * apply IH; [intros z Hz; apply Hlt; now right | done].
      * apply List.Forall_forall. intros z Hz. apply in_insert_desc in Hz.
        destruct Hz as [<-|Hz]; [left; done|].
        eapply List.Forall_forall in Hall; eauto.
Qed.

Lemma sort_desc_sorted l :
  StronglySorted (fun p q => (fst p < fst q)%nat) l -> StronglySorted ranked_before (sort_desc l).
Proof.
  induction l as [|x r IH]; intros Hs; simpl; [constructor|].
  inversion Hs as [|? ? Hs' Hall]; subst. apply insert_desc_sorted; [|apply IH, Hs'].
  intros y Hy. rewrite in_sort_desc in Hy. exact (proj1 (List.Forall_forall _ _) Hall y Hy).
Qed.

Lemma SS_filter {A} (R : A -> A -> Prop) (f : A -> bool) (l : list A) :
  StronglySorted R l -> StronglySorted R (List.filter f l).
Proof.
  induction l as [|x r IH]; intros Hs; simpl; [constructor|].
  inversion Hs as [|? ? Hs' Hall]; subst.
  destruct (f x); [|auto]. constructor; [auto|].
  apply List.Forall_forall. intros y Hy. apply filter_In in Hy.
  eapply List.Forall_forall in Hall; [|apply Hy]. exact Hall.
Qed.

Lemma in_firstn_l {A} (n : nat) (l : list A) (y : A) : In y (firstn n l) -> In y l.
Proof. intros H. rewrite <- (firstn_skipn n l). apply in_or_app. now left. Qed.

Lemma SS_firstn {A} (R : A -> A -> Prop) (n : nat) (l : list A) :
  StronglySorted R l -> StronglySorted R (firstn n l).
Proof.
  revert l; induction n as [|n IH]; intros [|x r] Hs; simpl; try constructor;
    inversion Hs as [|? ? Hs' Hall]; subst.
  - now apply IH.
  - apply List.Forall_forall. intros y Hy. apply in_firstn_l in Hy.
    eapply List.Forall_forall in Hall; eauto.
Qed.

Lemma SS_app {A} (R : A -> A -> Prop) (l1 l2 : list A) :
  StronglySorted R l1 -> StronglySorted R l2 ->
  (forall a b, In a l1 -> In b l2 -> R a b) -> StronglySorted R (l1 ++ l2).
Proof.
  induction l1 as [|x r IH]; intros H1 H2 Hx; simpl; [done|].
  inversion H1 as [|? ? Hs Hall]; subst. constructor.
  - apply IH; auto. intros a b Ha Hb. apply Hx; [now right | done].
  - apply List.Forall_forall. intros y Hy. apply in_app_or in Hy as [Hy|Hy].
    + eapply List.Forall_forall in Hall; eauto.
    + apply Hx; [now left | done].
Qed.

Lemma SS_impl {A} (R S : A -> A -> Prop) (l : list A) :
  (forall a b, In a l -> In b l -> R a b -> S a b) -> StronglySorted R l -> StronglySorted S l.
Proof.
  induction l as [|x r IH]; intros Himp Hs; [constructor|].
  inversion Hs as [|? ? Hs' Hall]; subst. constructor.
  - apply IH; auto. intros a b Ha Hb. apply Himp; now right.
  - apply List.Forall_forall. intros y Hy. apply Himp; [now left | now right |].
    eapply List.Forall_forall in Hall; eauto.
Qed.

Lemma combine_seq_sorted (k : nat) (rows : list ScoredTx) :
  StronglySorted (fun p q => (fst p < fst q)%nat) (combine (seq k (length rows)) rows).
Proof.
  revert k; induction rows as [|r rs IH]; intros k; simpl; constructor; [apply IH|].
  apply List.Forall_forall. intros [i r'] H. simpl.
  apply in_combine_l, in_seq in H. lia.
Qed.

Lemma in_combine_seq (k : nat) (rows : list ScoredTx) (i : nat) (r : ScoredTx) :
  In (i, r) (combine (seq k (length rows)) rows) -> (k <= i)%nat /\ nth_error rows (i - k) = Some r.
Proof.
  revert k; induction rows as [|r0 rs IH]; intros k H; simpl in H; [done|].
  destruct H as [H|H].
  - injection H as <- <-. rewrite Nat.sub_diag. done.
  - apply IH in H as [Hle Hn]. split; [lia|].
    replace (i - k)%nat with (S (i - S k)) by lia. done.
Qed.

Lemma in_rows_combine (k : nat) (rows : list ScoredTx) (r : ScoredTx) :
  In r rows -> exists i, In (i, r) (combine (seq k (length rows)) rows).
Proof.
  revert k; induction rows as [|r0 rs IH]; intros k H; [done|].
  destruct H as [<-|H].
  - exists k. now left.
  - destruct (IH (S k) H) as [i Hi]. exists i. now right.
Qed.

Lemma flagged_rows_spec (rows : list ScoredTx) (p : nat * ScoredTx) :
  In p (flagged_rows rows) ->
  nth_error rows (fst p) = Some (snd p) /\ is_anomaly (snd p) = 1%Z.
Proof.
  unfold flagged_rows. intros H. apply filter_In in H as [H Hf].
  destruct p as [i r]. apply in_combine_seq in H as [_ H].
  rewrite Nat.sub_0_r in H. split; [done|]. now apply Z.eqb_eq.
Qed.

Lemma flagged_rows_nil (rows : list ScoredTx) :
  (forall r, In r rows -> is_anomaly r <> 1%Z) -> flagged_rows rows = [].
Proof.
  intros H. destruct (flagged_rows rows) as [|p ps] eqn:E; [done|].
  exfalso. destruct (flagged_rows_spec rows p) as [Hn Ha]; [rewrite E; now left|].
  apply (H (snd p)); [eapply nth_error_In; eauto | done].
Qed.

Lemma flagged_rows_cons (rows : list ScoredTx) (r : ScoredTx) :
  In r rows -> is_anomaly r = 1%Z -> flagged_rows rows <> [].
Proof.
  intros Hin Ha E. destruct (in_rows_combine 0 rows r Hin) as [i Hi].
  assert (Hf : In (i, r) (flagged_rows rows)).
  { apply filter_In. split; [done|]. simpl. now apply Z.eqb_eq. }
  rewrite E in Hf. done.
Qed.

Lemma in_insert_by b x l z : In z (insert_by b x l) <-> In z (x :: l).
Proof.
  induction l as [|y ys IH]; simpl; [tauto|].
  destruct (b x y); simpl; [tauto|]. rewrite IH. simpl. tauto.
Qed.

Lemma in_sort_by b l z : In z (sort_by b l) <-> In z l.
Proof.
  induction l as [|x r IH]; simpl; [tauto|]. rewrite in_insert_by. simpl. rewrite IH. tauto.
Qed.

Lemma length_insert_by b x l : length (insert_by b x l) = S (length l).
Proof. induction l as [|y ys IH]; simpl; [done|]. destruct (b x y); simpl; auto. Qed.

Lemma length_sort_by b l : length (sort_by b l) = length l.
Proof.
  induction l as [|x l IH]; simpl; [done|]. unfold sort_by in *. simpl.
  by rewrite length_insert_by, IH.
Qed.

Lemma insert_by_sorted (R : nat * ScoredTx -> nat * ScoredTx -> Prop) b x l :
  (forall p q r, R p q -> R q r -> R p r) ->
  (forall y, b x y = true -> R x y) -> (forall y, b x y = false -> R y x) ->
  StronglySorted R l -> StronglySorted R (insert_by b x l).
Proof.
  intros Htr Ht Hf. induction l as [|y ys IH]; intros Hs; simpl; [repeat constructor|].
  inversion Hs as [|? ? Hs' Hall]; subst.
  destruct (b x y) eqn:E.
  - constructor; [exact Hs|]. constructor; [exact (Ht y E)|].
    apply List.Forall_forall. intros z Hz. apply Htr with y; [exact (Ht y E)|].
    eapply List.Forall_forall in Hall; eauto.
  - constructor; [exact (IH Hs')|].
    apply List.Forall_forall. intros z Hz. apply in_insert_by in Hz.
    destruct Hz as [<-|Hz]; [exact (Hf y E)|].
    eapply List.Forall_forall in Hall; eauto.
Qed.

Lemma sort_by_sorted (R : nat * ScoredTx -> nat * ScoredTx -> Prop) b l :
  (forall p q r, R p q -> R q r -> R p r) ->
  (forall x y, b x y = true -> R x y) -> (forall x y, b x y = false -> R y x) ->
  StronglySorted R (sort_by b l).
Proof.
  intros Htr Ht Hf. induction l as [|x r IH]; simpl; [constructor|].
  apply insert_by_sorted; auto.
Qed.

Lemma amount_desc_trans p q r : amount_desc p q -> amount_desc q r -> amount_desc p r.
Proof. unfold amount_desc. intros H1 H2. exact (pf_le_trans _ _ _ H2 H1). Qed.

Lemma qs_before_true tie_rank x y : qs_before tie_rank x y = true -> amount_desc x y.
Proof. unfold qs_before, amount_desc. intros H. apply andb_prop in H. tauto. Qed.

Lemma qs_before_false tie_rank x y : qs_before tie_rank x y = false -> amount_desc y x.
Proof.
  unfold qs_before, amount_desc. intros H.
  destruct (pf_le (row_amount y) (row_amount x)) eqn:E1.
  - destruct (pf_le (row_amount x) (row_amount y)) eqn:E2; [done|]. discriminate.
  - destruct (pf_le_total (row_amount x) (row_amount y)) as [X|X]; [exact X|congruence].
Qed.

Lemma ranked_before_desc p q : ranked_before p q -> amount_desc p q.
Proof.
  unfold ranked_before, amount_desc. intros [H|(_ & H & _)]; [|exact H].
  destruct (pf_le_total (row_amount p) (row_amount q)) as [X|X]; [congruence|exact X].
Qed.

Lemma sort_desc_by l :
  sort_desc l = sort_by (fun x y => pf_le (row_amount y) (row_amount x)) l.
Proof.
  induction l as [|x r IH]; [done|]. unfold sort_desc, sort_by in *. simpl. rewrite IH.
  generalize (fold_right (insert_by (fun x y => pf_le (row_amount y) (row_amount x))) [] r).
  intros l. induction l as [|y ys IHl]; simpl; [done|]. by rewrite IHl.
Qed.

Lemma sort_desc_desc l : StronglySorted amount_desc (sort_desc l).
Proof.
  rewrite sort_desc_by.
  apply (sort_by_sorted amount_desc (fun x y => pf_le (row_amount y) (row_amount x)) l).
  - exact amount_desc_trans.
  - intros x y H. exact H.
  - intros x y H. unfold amount_desc.
    destruct (pf_le_total (row_amount x) (row_amount y)) as [X|X]; [exact X|congruence].
Qed.

Lemma nan_tail_desc (l1 l2 : list (nat * ScoredTx)) :
  StronglySorted amount_desc l1 ->
  StronglySorted amount_desc (l1 ++ List.filter (fun r => pf_isnan (row_amount r)) l2).
Proof.
  intros H1. apply SS_app; [exact H1| |].
  - induction l2 as [|x r IH]; simpl; [constructor|].
    destruct (pf_isnan (row_amount x)) eqn:Ex; [|exact IH]. constructor; [exact IH|].
    apply List.Forall_forall. intros y Hy. apply filter_In in Hy as [_ Hy].
    unfold amount_desc. destruct (row_amount y); try discriminate. reflexivity.
  - intros a b _ Hb. apply filter_In in Hb as [_ Hb].
    unfold amount_desc. destruct (row_amount b); try discriminate. reflexivity.
Qed.

Lemma nlargest_desc tie_rank (n : nat) (l : list (nat * ScoredTx)) :
  StronglySorted amount_desc (nlargest tie_rank n l).
Proof.
  unfold nlargest. destruct (Nat.leb (length l) n); apply SS_firstn, nan_tail_desc.
  - apply sort_by_sorted; [exact amount_desc_trans | apply qs_before_true | apply qs_before_false].
  - apply sort_desc_desc.
Qed.

Lemma nlargest_sorted tie_rank (n : nat) (l : list (nat * ScoredTx)) :
  (n < length l)%nat ->
  StronglySorted (fun p q => (fst p < fst q)%nat) l ->
  StronglySorted ranked_before (nlargest tie_rank n l).
Proof.
  intros Hn Hs. unfold nlargest.
  destruct (Nat.leb_spec (length l) n) as [Hle|_]; [lia|].
  apply SS_firstn, SS_app.
  - apply sort_desc_sorted, SS_filter, Hs.
  - eapply SS_impl; [|apply SS_filter, Hs].
    intros a b Ha Hb Hlt. apply filter_In in Ha as [_ Ha], Hb as [_ Hb].
    unfold ranked_before. right.
    destruct (row_amount a); try discriminate. destruct (row_amount b); try discriminate.
    simpl. auto.
  - intros a b Ha Hb. apply in_sort_desc, filter_In in Ha as [_ Ha].
    apply filter_In in Hb as [_ Hb]. left. unfold ranked_before.
    destruct (row_amount a) as [|[]|]; try discriminate;
      destruct (row_amount b); try discriminate; reflexivity.
Qed.

Lemma in_nlargest tie_rank (n : nat) (l : list (nat * ScoredTx)) (p : nat * ScoredTx) :
  In p (nlargest tie_rank n l) -> In p l.
Proof.
  unfold nlargest. intros H.
  destruct (Nat.leb (length l) n); apply in_firstn_l, in_app_or in H as [H|H].
  - apply in_sort_by, filter_In in H. tauto.
  - apply filter_In in H. tauto.
  - apply in_sort_desc, filter_In in H. tauto.
  - apply filter_In in H. tauto.
Qed.

Lemma length_nan_split (l : list (nat * ScoredTx)) :
  (length (List.filter (fun r => negb (pf_isnan (row_amount r))) l) +
   length (List.filter (fun r => pf_isnan (row_amount r)) l))%nat = length l.
Proof.
  induction l as [|x r IH]; simpl; [done|].
  destruct (pf_isnan (row_amount x)); simpl; lia.
Qed.

Lemma length_nlargest tie_rank (n : nat) (l : list (nat * ScoredTx)) :
  length (nlargest tie_rank n l) = Nat.min n (length l).
Proof.
  unfold nlargest. rewrite <- (length_nan_split l).
  destruct (Nat.leb _ n); rewrite length_firstn, length_app;
    [rewrite length_sort_by | rewrite sort_desc_by, length_sort_by]; reflexivity.
Qed.

Lemma existsb_eqb_In (c : string) (cols : list string) :
  existsb (String.eqb c) cols = true <-> In c cols.
Proof.
  rewrite existsb_exists. split.
  - intros (c' & Hin & E). apply String.eqb_eq in E. now subst.
  - intros Hin. exists c. split; [done | apply String.eqb_refl].
Qed.

(** C9: the report builder is total: an error marker when one of
    is_anomaly, anomaly_score, amount is absent, the "no anomalies" marker
    when no row is flagged, and otherwise a report whose top list holds at
    most 5 flagged rows of the input by amount descending (NaN last),
    whatever order the unstable sort leaves equal amounts in; when more
    than 5 rows are flagged, equal amounts are in input row order. *)
Theorem explain_anomalies_markers (tie_rank : nat -> Z) (df : RFrame) :
  ((exists c, In c required_cols /\ ~ In c (rf_columns df)) ->
     exists msg, explain_anomalies tie_rank df = RError msg) /\
  ((forall c, In c required_cols -> In c (rf_columns df)) ->
     (forall r, In r (rf_rows df) -> is_anomaly r <> 1%Z) ->
     explain_anomalies tie_rank df = RInfo "Aucune anomalie détectée") /\
  ((forall c, In c required_cols -> In c (rf_columns df)) ->
     (exists r, In r (rf_rows df) /\ is_anomaly r = 1%Z) ->
     exists cnt mean mx mn (top : list (nat * ScoredTx)),
       explain_anomalies tie_rank df = RReport cnt mean mx mn (map snd top) /\
       (length top <= 5)%nat /\
       Forall (fun p => nth_error (rf_rows df) (fst p) = Some (snd p) /\
                        is_anomaly (snd p) = 1%Z) top /\
       StronglySorted amount_desc top /\
       ((5 < cnt)%nat -> StronglySorted ranked_before top)).
Proof.
  destruct df as [cols rows]. cbn [rf_columns rf_rows].
  split; [|split].
  - intros (c & Hc & Hn). unfold explain_anomalies. cbn [rf_columns].
    destruct (List.filter _ required_cols) as [|m ms] eqn:E; [|eexists; reflexivity].
    exfalso. assert (Hin : In c (List.filter (fun c => negb (existsb (String.eqb c) cols))
                                  required_cols)).
    { apply filter_In. split; [done|].
      destruct (existsb (String.eqb c) cols) eqn:Ex; [|done].
      apply existsb_eqb_In in Ex. contradiction. }
    rewrite E in Hin. done.
  - intros Hc Hr. unfold explain_anomalies. cbn [rf_columns rf_rows required_cols List.filter].
    rewrite !(proj2 (existsb_eqb_In _ _)) by (apply Hc; simpl; tauto). simpl.
    rewrite flagged_rows_nil by done. reflexivity.
  - intros Hc (r & Hin & Ha). unfold explain_anomalies. cbn [rf_columns rf_rows required_cols List.filter].
    rewrite !(proj2 (existsb_eqb_In _ _)) by (apply Hc; simpl; tauto). simpl.
    pose proof (flagged_rows_cons rows r Hin Ha) as Hne.
    destruct (flagged_rows rows) as [|p ps] eqn:E; [done|].
    do 4 eexists. exists (nlargest tie_rank 5 (p :: ps)). split; [reflexivity|]. split; [|split; [|split]].
    + rewrite length_nlargest. lia.
    + apply List.Forall_forall. intros q Hq. apply in_nlargest in Hq.
      apply flagged_rows_spec. rewrite E. exact Hq.
    + apply nlargest_desc.
    + intros Hlt. apply nlargest_sorted; [exact Hlt|]. rewrite <- E. unfold flagged_rows.
      apply SS_filter, combine_seq_sorted.
Qed.

Lemma explain_anomalies_markers_witness :
  exists cnt mean mx mn (top : list (nat * ScoredTx)),
    explain_anomalies tie_index
      (mkRFrame required_cols [scored_sample 5 1; scored_sample 9 0; scored_sample 7 1;
                               scored_sample 7 1])
      = RReport cnt mean mx mn (map snd top) /\
    (length top <= 5)%nat /\
    Forall (fun p => nth_error [scored_sample 5 1; scored_sample 9 0; scored_sample 7 1;
                                scored_sample 7 1] (fst p) = Some (snd p) /\
                     is_anomaly (snd p) = 1%Z) top /\
    StronglySorted amount_desc top /\
    ((5 < cnt)%nat -> StronglySorted ranked_before top).
Proof.
  apply (proj2 (proj2 (explain_anomalies_markers tie_index
     (mkRFrame required_cols [scored_sample 5 1; scored_sample 9 0; scored_sample 7 1;
                              scored_sample 7 1])))).
  - intros c Hc. exact Hc.
  - exists (scored_sample 5 1). split; [simpl; tauto | reflexivity].
Defined.

(** C9 (counterexample): with at most 5 flagged rows, pandas sorts with
    numpy's unstable quicksort, so equal amounts need not come out in
    input row order: under the tie order [tie_reverse], the flagged
    amounts [2; 1; 7; 7] give a top list that no choice of index labels
    makes ordered with equal amounts in row order. *)
Lemma explain_anomalies_tie_counterexample :
  ~ exists cnt mean mx mn (top : list (nat * ScoredTx)),
      explain_anomalies tie_reverse (mkRFrame required_cols tied_rows)
        = RReport cnt mean mx mn (map snd top) /\
      Forall (fun p => nth_error tied_rows (fst p) = Some (snd p)) top /\
      StronglySorted ranked_before top.
Proof.
  intros (cnt & mean & mx & mn & top & He & Hf & Hs).
  vm_compute in He. injection He as _ _ _ _ Ht.
  destruct top as [|[i a] [|[j b] rest]]; try discriminate.
  simpl in Ht. injection Ht as Ha Hb _.
  inversion Hs as [|? ? _ Hall]; subst.
  inversion Hall as [|? ? Hij _]; subst.
  inversion Hf as [|? ? Hi Hf']; subst. inversion Hf' as [|? ? Hj _]; subst.
  simpl in Hi, Hj.
  assert (Ei : i = 3%nat).
  { destruct i as [|[|[|[|i]]]]; vm_compute in Hi; try discriminate; [done|].
    destruct i; discriminate. }
  assert (Ej : j = 2%nat).
  { destruct j as [|[|[|[|j]]]]; vm_compute in Hj; try discriminate; [done|].
    destruct j; discriminate. }
  subst. unfold ranked_before in Hij. vm_compute in Hij.
  destruct Hij as [H|(_ & _ & H)]; [discriminate|lia].
Qed.

Example explain_anomalies_top_order :
  match explain_anomalies tie_index
          (mkRFrame required_cols [scored_sample 5 1; scored_sample 9 0; scored_sample 7 1])
  with
  | RReport 2 _ _ _ [a; b] => c_amount (s_tx a) = PF 7 /\ c_amount (s_tx b) = PF 5
  | _ => False
  end.
Proof. split; reflexivity. Qed.

Example explain_anomalies_info :
  explain_anomalies tie_index (mkRFrame required_cols [scored_sample 5 0])
  = RInfo "Aucune anomalie détectée".
Proof. reflexivity. Qed.

(** ** Persistence *)

Example save_ex1 :
  let '(ok, db1) := save_transactions sample_float_repr sample_ts_repr sample_timestamp_in true
                      default_ts [scored_row "T1" 12 " ab 1 " true (-1 # 10)] "<pacs.008/>" empty_db in
  ok = true /\
  option_map (fun r => (p_amount r, p_debtor_account r, p_is_anomaly r, p_file_type r))
    (tbl db1 !! "T1") = Some (PF 12, " ab 1 ", true, "PACS.008").
Proof. split; reflexivity. Qed.

Example save_ex_rollback :
  save_transactions sample_float_repr sample_ts_repr sample_timestamp_in true default_ts
    [scored_row "T1" 12 "A" true 0; unscored_row "T2" 5 "EURO"] "x" empty_db
  = (false, empty_db).
Proof. reflexivity. Qed.

Lemma save_transactions_true fr tr ti (conn : bool) now (df : list PyRow) xml (db db' : DB) :
  save_transactions fr tr ti conn now df xml db = (true, db') ->
  conn = true /\ exec_rows fr tr ti now (file_type_of xml) df db = Some db'.
Proof.
  unfold save_transactions. destruct conn; [|discriminate].
  destruct (exec_rows _ _ _ _ _ _ _) eqn:E; [|discriminate].
  intros H; injection H as <-. done.
Qed.

Lemma proposed_row_indep ti now id now' id' (p : Params) (ex : PRow) :
  proposed_row ti now id p = Some ex ->
  exists ex', proposed_row ti now' id' p = Some ex' /\
              p_transaction_id ex' = p_transaction_id ex /\ mutable_of ex' = mutable_of ex.
Proof.
  unfold proposed_row, mbind, option_bind. intros H.
  repeat (case_match; simpl in *; try discriminate).
  simplify_eq. eexists; split; [reflexivity|done].
Qed.

Lemma proposed_row_now ti now id (p : Params) (ex : PRow) :
  proposed_row ti now id p = Some ex -> p_processing_date ex = now.
Proof.
  unfold proposed_row, mbind, option_bind. intros H.
  repeat (case_match; simpl in *; try discriminate).
  by simplify_eq.
Qed.

Lemma upsert_spec ti now (p : Params) (db db' : DB) :
  upsert ti now p db = Some db' ->
  exists ex, proposed_row ti now (next_id db) p = Some ex /\
    tbl db' = match tbl db !! p_transaction_id ex with
              | Some old => <[p_transaction_id ex := conflict_update ex old]> (tbl db)
              | None => <[p_transaction_id ex := ex]> (tbl db)
              end.
Proof.
  unfold upsert. destruct (proposed_row ti now (next_id db) p) as [ex|] eqn:E; simpl; [|discriminate].
  intros H; injection H as <-. eexists; split; [reflexivity|done].
Qed.

Lemma upsert_other ti now (p : Params) (db db' : DB) (ex : PRow) (k : string) :
  proposed_row ti now (next_id db) p = Some ex ->
  tbl db' = match tbl db !! p_transaction_id ex with
            | Some old => <[p_transaction_id ex := conflict_update ex old]> (tbl db)
            | None => <[p_transaction_id ex := ex]> (tbl db)
            end ->
  k <> p_transaction_id ex -> tbl db' !! k = tbl db !! k.
Proof.
  intros _ -> Hk. destruct (tbl db !! p_transaction_id ex); by rewrite lookup_insert_ne.
Qed.

Lemma exec_rows_frozen fr tr ti now ft (df : list PyRow) (db db' : DB) :
  exec_rows fr tr ti now ft df db = Some db' ->
  forall k old, tbl db !! k = Some old ->
  exists r, tbl db' !! k = Some r /\ frozen_of r = frozen_of old.
Proof.
  revert db. induction df as [|row rest IH]; intros db H k old Hold; simpl in H.
  - injection H as <-. eauto.
  - destruct (row_params _ _ _ row) as [p|]; [|discriminate].
    destruct (upsert ti now p db) as [db1|] eqn:Eu; [|discriminate].
    destruct (upsert_spec _ _ _ _ _ Eu) as (ex & Hex & Htbl).
    assert (Hmid : exists r1, tbl db1 !! k = Some r1 /\ frozen_of r1 = frozen_of old).
    { destruct (String.eq_dec k (p_transaction_id ex)) as [->|Hk].
      - rewrite Htbl, Hold, lookup_insert_eq. eexists; split; reflexivity.
      - rewrite (upsert_other _ _ _ _ _ _ k Hex Htbl Hk). eauto. }
    destruct Hmid as (r1 & Hr1 & Hf1).
    destruct (IH db1 H k r1 Hr1) as (r & Hr & Hf). exists r. split; [done|congruence].
Qed.

Lemma exec_rows_last fr tr ti now ft (df : list PyRow) (db db' : DB) :
  exec_rows fr tr ti now ft df db = Some db' ->
  forall k,
    match last_write fr tr ti ft df k with
    | None => tbl db' !! k = tbl db !! k
    | Some m => exists r, tbl db' !! k = Some r /\ mutable_of r = m /\ p_processing_date r = now
    end.
Proof.
  revert db. induction df as [|row rest IH]; intros db H k; simpl in H |- *.
  - by injection H as <-.
  - destruct (row_params _ _ _ row) as [p|]; [|discriminate].
    destruct (upsert ti now p db) as [db1|] eqn:Eu; [|discriminate].
    specialize (IH db1 H k).
    destruct (last_write fr tr ti ft rest k) as [m|]; [exact IH|].
    destruct (upsert_spec _ _ _ _ _ Eu) as (ex & Hex & Htbl).
    destruct (proposed_row_indep _ _ _ default_ts 0 _ _ Hex) as (ex0 & Hex0 & Hk0 & Hm0).
    rewrite Hex0, Hk0. rewrite IH.
    change (p_amount ex0, p_debtor_account ex0, p_creditor_account ex0) with (mutable_of ex0).
    rewrite Hm0.
    pose proof (proposed_row_now _ _ _ _ _ Hex) as Hnow.
    destruct (String.eqb_spec (p_transaction_id ex) k) as [<-|Hk].
    + rewrite Htbl. destruct (tbl db !! p_transaction_id ex);
        rewrite lookup_insert_eq; eexists; (split; [reflexivity|]); split; done.
    + apply (upsert_other _ _ _ _ _ _ k Hex Htbl). congruence.
Qed.

(** C3: on a [transaction_id] already stored, one upsert sets
    [processing_date] to the upsert time and [amount], [debtor_account],
    [creditor_account] to the new values, keeps every other column and
    leaves other rows alone; a whole save keeps those columns of every
    stored row; and saving the same batch twice leaves, on every stored
    row, the columns of the first save and the same amount and accounts. *)
Theorem upsert_conflict_policy fr tr ti :
  (forall now (p : Params) (db db' : DB) (ex old : PRow),
     upsert ti now p db = Some db' ->
     proposed_row ti now (next_id db) p = Some ex ->
     tbl db !! p_transaction_id ex = Some old ->
     exists new, tbl db' !! p_transaction_id ex = Some new /\
       frozen_of new = frozen_of old /\ p_processing_date new = now /\
       mutable_of new = mutable_of ex /\
       (forall k, k <> p_transaction_id ex -> tbl db' !! k = tbl db !! k)) /\
  (forall (conn : bool) now df xml (db db' : DB),
     save_transactions fr tr ti conn now df xml db = (true, db') ->
     forall k old, tbl db !! k = Some old ->
     exists new, tbl db' !! k = Some new /\ frozen_of new = frozen_of old) /\
  (forall (conn : bool) now1 now2 df xml (db db1 db2 : DB),
     save_transactions fr tr ti conn now1 df xml db = (true, db1) ->
     save_transactions fr tr ti conn now2 df xml db1 = (true, db2) ->
     forall k r1, tbl db1 !! k = Some r1 ->
     exists r2, tbl db2 !! k = Some r2 /\
       frozen_of r2 = frozen_of r1 /\ mutable_of r2 = mutable_of r1).
Proof.
  split; [|split].
  - intros now p db db' ex old Hu Hex Hold.
    destruct (upsert_spec _ _ _ _ _ Hu) as (ex' & Hex' & Htbl).
    rewrite Hex in Hex'. injection Hex' as <-.
    exists (conflict_update ex old). rewrite Htbl, Hold, lookup_insert_eq.
    split; [done|]. split; [done|].
    split; [simpl; exact (proposed_row_now _ _ _ _ _ Hex)|]. split; [done|].
    intros k Hk. by rewrite lookup_insert_ne.
  - intros conn now df xml db db' Hs k old Hold.
    apply save_transactions_true in Hs as [_ He].
    eapply exec_rows_frozen; eauto.
  - intros conn now1 now2 df xml db db1 db2 Hs1 Hs2 k r1 Hr1.
    apply save_transactions_true in Hs1 as [_ He1].
    apply save_transactions_true in Hs2 as [_ He2].
    destruct (exec_rows_frozen _ _ _ _ _ _ _ _ He2 k r1 Hr1) as (r2 & Hr2 & Hf).
    exists r2. split; [done|]. split; [done|].
    pose proof (exec_rows_last _ _ _ _ _ _ _ _ He1 k) as L1.
    pose proof (exec_rows_last _ _ _ _ _ _ _ _ He2 k) as L2.
    destruct (last_write fr tr ti (file_type_of xml) df k) as [m|].
    + destruct L1 as (s1 & Hs1 & Hm1 & _). destruct L2 as (s2 & Hs2' & Hm2 & _).
      rewrite Hr1 in Hs1. injection Hs1 as <-. rewrite Hr2 in Hs2'. injection Hs2' as <-.
      congruence.
    + rewrite L2, Hr1 in Hr2. by injection Hr2 as <-.
Qed.

Lemma upsert_conflict_policy_witness :
  save_transactions sample_float_repr sample_ts_repr sample_timestamp_in true
    default_ts c3_batch "<pacs.008/>" empty_db = (true, c3_db1) /\
  save_transactions sample_float_repr sample_ts_repr sample_timestamp_in true
    later_ts c3_batch "<pacs.008/>" c3_db1 = (true, c3_db2) /\
  exists r1, tbl c3_db1 !! "T1" = Some r1 /\
  exists r2, tbl c3_db2 !! "T1" = Some r2 /\
    frozen_of r2 = frozen_of r1 /\ mutable_of r2 = mutable_of r1.
Proof.
  split; [reflexivity|]. split; [reflexivity|].
  eexists. split; [reflexivity|].
  apply (proj2 (proj2 (upsert_conflict_policy sample_float_repr sample_ts_repr sample_timestamp_in))
           true default_ts later_ts c3_batch "<pacs.008/>" empty_db c3_db1 c3_db2);
    reflexivity.
Defined.

(** C4: [save_transactions] persists all of a batch or none of it. A
    row-level failure (a parameter that cannot be built or a statement
    that PostgreSQL refuses) makes it return [false] with the store
    exactly as before the call; every call returns either [false] with
    the store unchanged, or [true] with every row of the batch upserted. *)
Theorem save_transactions_all_or_nothing fr tr ti (conn : bool) now (df : list PyRow) xml (db : DB) :
  (exec_rows fr tr ti now (file_type_of xml) df db = None ->
   save_transactions fr tr ti conn now df xml db = (false, db)) /\
  (forall b db', save_transactions fr tr ti conn now df xml db = (b, db') ->
   (b = false /\ db' = db) \/
   (b = true /\ exec_rows fr tr ti now (file_type_of xml) df db = Some db')).
Proof.
  unfold save_transactions. split.
  - intros H. destruct conn; [now rewrite H | reflexivity].
  - intros b db' H. destruct conn.
    + destruct (exec_rows _ _ _ _ _ _ _) as [db1|] eqn:E; injection H as <- <-; auto.
    + injection H as <- <-. auto.
Qed.

Lemma save_transactions_all_or_nothing_witness :
  exec_rows sample_float_repr sample_ts_repr sample_timestamp_in default_ts
    (file_type_of "x") c4_batch empty_db = None /\
  save_transactions sample_float_repr sample_ts_repr sample_timestamp_in true default_ts
    c4_batch "x" empty_db = (false, empty_db).
Proof.
  split; [reflexivity|].
  apply (proj1 (save_transactions_all_or_nothing sample_float_repr sample_ts_repr
                  sample_timestamp_in true default_ts c4_batch "x" empty_db)).
  reflexivity.
Defined.

Lemma row_getitem_app (r1 r2 : PyRow) k :
  row_getitem (r1 ++ r2)%list k =
  match row_getitem r1 k with Some v => Some v | None => row_getitem r2 k end.
Proof.
  unfold row_getitem. induction r1 as [|[a v] r1 IH]; simpl.
  - by destruct (List.find _ r2).
  - destruct (String.eqb a k); simpl; [done|exact IH].
Qed.

Lemma row_getitem_notin (l : PyRow) k : ~ In k (map fst l) -> row_getitem l k = None.
Proof.
  unfold row_getitem. induction l as [|[a v] l IH]; simpl; intros Hk; [done|].
  destruct (String.eqb_spec a k); [subst; tauto|]. apply IH; tauto.
Qed.

Lemma with_defaults_other (row : PyRow) k :
  existsb (String.eqb k) optional_cols = false ->
  row_getitem (with_defaults row) k = row_getitem row k.
Proof.
  intros Hk. unfold with_defaults. rewrite row_getitem_app.
  destruct (row_getitem row k); [done|]. apply row_getitem_notin. simpl. intros Hin.
  assert (Hin' : In k optional_cols) by (unfold optional_cols; simpl; intuition congruence).
  assert (Ht : existsb (String.eqb k) optional_cols = true)
    by (apply existsb_exists; exists k; split; [exact Hin'|apply String.eqb_refl]).
  congruence.
Qed.

Lemma exec_rows_new_rows fr tr ti now ft (P : PRow -> Prop) (df : list PyRow) (db0 db db' : DB) :
  (forall row p id ex, In row df -> row_params fr tr ft row = Some p ->
     proposed_row ti now id p = Some ex -> P ex) ->
  (forall ex old, P ex -> P old -> P (conflict_update ex old)) ->
  (forall k r, tbl db !! k = Some r -> tbl db0 !! k = None -> P r) ->
  exec_rows fr tr ti now ft df db = Some db' ->
  forall k r, tbl db' !! k = Some r -> tbl db0 !! k = None -> P r.
Proof.
  intros HP Hc. revert db. induction df as [|row rest IH]; intros db Hinv H; simpl in H.
  - by injection H as <-.
  - destruct (row_params fr tr ft row) as [p|] eqn:Ep; [|discriminate].
    destruct (upsert ti now p db) as [db1|] eqn:Eu; [|discriminate].
    apply (IH (fun row' p' id ex Hin => HP row' p' id ex (or_intror Hin)) db1); [|exact H].
    destruct (upsert_spec _ _ _ _ _ Eu) as (ex & Hex & Htbl).
    pose proof (HP row p _ ex (or_introl eq_refl) Ep Hex) as Pex.
    intros k r Hr H0.
    destruct (String.eq_dec k (p_transaction_id ex)) as [->|Hk].
    + rewrite Htbl in Hr. destruct (tbl db !! p_transaction_id ex) as [old|] eqn:Eo;
        rewrite lookup_insert_eq in Hr; injection Hr as <-; [|exact Pex].
      apply Hc; [exact Pex|]. exact (Hinv _ _ Eo H0).
    + rewrite (upsert_other _ _ _ _ _ _ k Hex Htbl Hk) in Hr. eauto.
Qed.

Lemma with_defaults_get (row : PyRow) c d :
  row_getitem [("debtor_account", VStr ""); ("creditor_account", VStr "");
               ("is_anomaly", VBool false); ("anomaly_score", VInt 0)] c = Some d ->
  row_get (with_defaults row) c d = row_get row c d.
Proof.
  intros Hd. unfold row_get, with_defaults. rewrite row_getitem_app.
  destruct (row_getitem row c); [done|]. by rewrite Hd.
Qed.

Lemma row_params_with_defaults fr tr ft (row : PyRow) :
  row_params fr tr ft row = row_params fr tr ft (with_defaults row).
Proof.
  unfold row_params.
  rewrite !(with_defaults_other row "transaction_id"), !(with_defaults_other row "amount"),
    !(with_defaults_other row "currency"), !(with_defaults_other row "creation_date"),
    !(with_defaults_other row "acceptance_datetime"), !(with_defaults_other row "debtor_name"),
    !(with_defaults_other row "creditor_name") by reflexivity.
  rewrite (with_defaults_get row "debtor_account"), (with_defaults_get row "creditor_account"),
    (with_defaults_get row "is_anomaly"), (with_defaults_get row "anomaly_score") by reflexivity.
  reflexivity.
Qed.

Lemma exec_rows_with_defaults fr tr ti now ft (df : list PyRow) (db : DB) :
  exec_rows fr tr ti now ft df db = exec_rows fr tr ti now ft (map with_defaults df) db.
Proof.
  revert db. induction df as [|row rest IH]; intros db; simpl; [done|].
  rewrite <- (row_params_with_defaults _ _ _ row).
  destruct (row_params fr tr ft row) as [p|]; [|done].
  destruct (upsert ti now p db); [apply IH|done].
Qed.

Lemma row_params_missing fr tr ft (row : PyRow) (p : Params) :
  row_params fr tr ft row = Some p ->
  (row_getitem row "is_anomaly" = None -> q_is_anomaly p = false) /\
  (row_getitem row "anomaly_score" = None -> q_anomaly_score p = PF 0) /\
  (row_getitem row "debtor_account" = None -> q_debtor_account p = "") /\
  (row_getitem row "creditor_account" = None -> q_creditor_account p = "").
Proof.
  intros H. unfold row_params, row_get, mbind, option_bind in H.
  split; [|split; [|split]]; intros E; rewrite E in H;
    repeat (case_match; simpl in *; try discriminate); by simplify_eq.
Qed.

Lemma proposed_row_defaults ti now id (p : Params) (ex : PRow) :
  proposed_row ti now id p = Some ex ->
  (q_is_anomaly p = false -> p_is_anomaly ex = false) /\
  (q_anomaly_score p = PF 0 -> p_anomaly_score ex = PF 0) /\
  (q_debtor_account p = "" -> p_debtor_account ex = "") /\
  (q_creditor_account p = "" -> p_creditor_account ex = "").
Proof.
  intros H.
  assert (E1 : numeric_in 10 4 (PF 0) = Some (PF 0)) by reflexivity.
  assert (E2 : varchar_in 50 "" = Some "") by reflexivity.
  unfold proposed_row, mbind, option_bind in H.
  split; [|split; [|split]]; intros E; rewrite E in H; try rewrite E1 in H; try rewrite E2 in H;
    repeat (case_match; simpl in *; try discriminate); simplify_eq; simpl; auto.
Qed.

(** C10: [save_transactions] reads [debtor_account], [creditor_account],
    [is_anomaly] and [anomaly_score] with [row.get], so a frame lacking any
    of them is saved exactly as the same frame with the missing columns set
    to [''], [''], [False] and [0] (the missing columns cause no failure);
    after a successful save, every row whose key was not stored before has
    [is_anomaly] false when the frame lacks [is_anomaly], [anomaly_score] 0
    when it lacks [anomaly_score], and an empty account identifier when it
    lacks the account column.  An unscored frame from [transform_data] has
    the account columns and lacks the two anomaly columns. *)
Theorem save_missing_columns_defaults fr tr ti (conn : bool) now (df : list PyRow) xml (db : DB) :
  save_transactions fr tr ti conn now df xml db =
    save_transactions fr tr ti conn now (map with_defaults df) xml db /\
  (forall db', save_transactions fr tr ti conn now df xml db = (true, db') ->
   forall k r, tbl db !! k = None -> tbl db' !! k = Some r ->
     (Forall (fun row => row_getitem row "is_anomaly" = None) df -> p_is_anomaly r = false) /\
     (Forall (fun row => row_getitem row "anomaly_score" = None) df -> p_anomaly_score r = PF 0) /\
     (Forall (fun row => row_getitem row "debtor_account" = None) df -> p_debtor_account r = "") /\
     (Forall (fun row => row_getitem row "creditor_account" = None) df ->
        p_creditor_account r = "")).
Proof.
  split.
  - unfold save_transactions. by rewrite <- exec_rows_with_defaults.
  - intros db' Hs k r H0 Hr.
    apply save_transactions_true in Hs as [_ He].
    set (Fc c := Forall (fun row => row_getitem row c = None) df).
    refine (exec_rows_new_rows fr tr ti now (file_type_of xml)
      (fun r => (Fc "is_anomaly" -> p_is_anomaly r = false) /\
                (Fc "anomaly_score" -> p_anomaly_score r = PF 0) /\
                (Fc "debtor_account" -> p_debtor_account r = "") /\
                (Fc "creditor_account" -> p_creditor_account r = ""))
      df db db db' _ _ _ He k r Hr H0).
    + intros row p id ex Hin Ep Hex.
      destruct (row_params_missing _ _ _ _ _ Ep) as (R1 & R2 & R3 & R4).
      destruct (proposed_row_defaults _ _ _ _ _ Hex) as (P1 & P2 & P3 & P4).
      unfold Fc. rewrite !List.Forall_forall.
      split; [|split; [|split]]; intros F; auto.
    + intros ex old (X1 & X2 & X3 & X4) (O1 & O2 & O3 & O4). simpl. tauto.
    + intros k' r' Hr' H0'. congruence.
Qed.

Lemma save_missing_columns_defaults_witness :
  exists ys db',
    transform_data no_dates [c10_raw "TX7" 12; c10_raw "TX8" (-3 # 2)] = Some ys /\
    save_transactions sample_float_repr sample_ts_repr sample_timestamp_in true
      default_ts (map canon_row ys) "<pacs.001/>" empty_db = (true, db') /\
    exists r, tbl db' !! "TX8" = Some r /\ p_debtor_account r = "MA1234" /\
      p_is_anomaly r = false /\ p_anomaly_score r = PF 0.
Proof.
  eexists; eexists. split; [reflexivity|]. split; [reflexivity|].
  eexists. split; [reflexivity|]. split; [reflexivity|].
  destruct (proj2 (save_missing_columns_defaults sample_float_repr sample_ts_repr
                     sample_timestamp_in true default_ts
                     (map canon_row (map (transform_row no_dates
                        (map creation_date [c10_raw "TX7" 12; c10_raw "TX8" (-3 # 2)])
                        (map acceptance_datetime [c10_raw "TX7" 12; c10_raw "TX8" (-3 # 2)]))
                        [c10_raw "TX7" 12; c10_raw "TX8" (-3 # 2)]))
                     "<pacs.001/>" empty_db) _ eq_refl "TX8" _ eq_refl eq_refl)
    as (H1 & H2 & _ & _).
  split; [apply H1 | apply H2]; repeat constructor.
Defined.

(* ================================================================== *)
(** * Further properties of the code *)

(** ** etl.py: clean_rib, get_text *)

Lemma remove_ws_upper_chars (s : string) :
  Forall (fun c => py_isspace c = false /\ ascii_upper c = c)
    (list_ascii_of_string (py_upper (remove_ws s))).
Proof.
  induction s as [|c r IH]; simpl; [constructor|].
  destruct (py_isspace c) eqn:E; [exact IH|]. simpl. constructor; [|exact IH].
  split; [by rewrite ascii_upper_space | apply ascii_upper_idem].
Qed.

(** [clean_rib] returns an identifier without any whitespace character
    and with no lower-case letter, whatever its input. *)
Theorem clean_rib_output_chars (x : pyval) :
  Forall (fun c => py_isspace c = false /\ ascii_upper c = c)
    (list_ascii_of_string (clean_rib x)).
Proof.
  destruct x as [| s | | | |]; simpl; try constructor.
  destruct (String.eqb (py_upper (remove_ws s)) "").
  - constructor.
  - apply remove_ws_upper_chars.
Qed.

Lemma rev_str_involutive (s : string) : rev_str (rev_str s) = s.
Proof.
  unfold rev_str. rewrite list_ascii_of_string_of_list_ascii, rev_involutive.
  apply string_of_list_ascii_of_string.
Qed.

Lemma list_rev_str (s : string) : list_ascii_of_string (rev_str s) = rev (list_ascii_of_string s).
Proof. unfold rev_str. apply list_ascii_of_string_of_list_ascii. Qed.

Lemma lstrip_no_lead (s : string) : no_lead (list_ascii_of_string (lstrip s)).
Proof.
  induction s as [|c r IH]; simpl; [done|].
  destruct (py_isspace c) eqn:E; [exact IH|]. simpl. exact E.
Qed.

Lemma lstrip_id (s : string) : no_lead (list_ascii_of_string s) -> lstrip s = s.
Proof. destruct s as [|c r]; simpl; [done|]. intros E. by rewrite E. Qed.

Lemma lstrip_suffix (s : string) :
  exists u, list_ascii_of_string s = (u ++ list_ascii_of_string (lstrip s))%list.
Proof.
  induction s as [|c r IH]; simpl; [by exists []|].
  destruct (py_isspace c).
  - destruct IH as [u Hu]. exists (c :: u). simpl. by rewrite Hu.
  - by exists [].
Qed.

Lemma py_strip_idem (s : string) : py_strip (py_strip s) = py_strip s.
Proof.
  unfold py_strip.
  set (a := lstrip s). set (b := lstrip (rev_str a)).
  assert (Hr : lstrip (rev_str b) = rev_str b).
  { apply lstrip_id. rewrite list_rev_str.
    destruct (lstrip_suffix (rev_str a)) as [u Hu]. fold b in Hu.
    rewrite list_rev_str in Hu.
    assert (Ha : list_ascii_of_string a = (rev (list_ascii_of_string b) ++ rev u)%list).
    { rewrite <- (rev_involutive (list_ascii_of_string a)), Hu. apply rev_app_distr. }
    pose proof (lstrip_no_lead s) as Hn. fold a in Hn. rewrite Ha in Hn.
    destruct (rev (list_ascii_of_string b)); simpl in *; done. }
  rewrite Hr, rev_str_involutive. unfold b at 1.
  rewrite (lstrip_id (lstrip (rev_str a))); [reflexivity|apply lstrip_no_lead].
Qed.

(** The text [get_text] returns, and an account identifier
    [get_account_id] returns, has no leading or trailing whitespace
    ([str.strip] leaves it unchanged); an account identifier is moreover
    never empty, while [get_text] gives the empty string for a text made
    only of whitespace. *)
Theorem get_text_stripped (e : option element) (path : list step) (t : string) (acct : option element) (a : string) :
  (get_text e path = Some t -> py_strip t = t) /\
  (get_account_id acct = Some a -> a <> "" /\ py_strip a = a).
Proof.
  assert (G : forall e path t, get_text e path = Some t -> py_strip t = t).
  { intros e' p t' H. unfold get_text in H.
    destruct e' as [e'|]; [|discriminate].
    destruct (find e' p) as [f|]; [|discriminate].
    destruct (el_text f) as [x|]; [|discriminate].
    destruct (String.eqb x ""); [discriminate|].
    injection H as <-. apply py_strip_idem. }
  split; [apply G|].
  unfold get_account_id. destruct acct as [el|]; [|discriminate].
  destruct (get_text (Some el) _) as [x|] eqn:E; [|discriminate].
  destruct (String.eqb_spec x "") as [_|Hx]; [discriminate|].
  intros H; injection H as <-. split; [exact Hx|]. exact (G _ _ _ E).
Qed.

(** ** etl.py: transform_data *)

(** All the rows that [transform_data] builds from one document carry
    that document's [message_id] and [creation_date] (both read from the
    group header). *)
Theorem transform_shared_header to_dt (root : element) (ys : list CanonTx) :
  transform_data to_dt (extract_transactions root) = Some ys ->
  forall y1 y2, In y1 ys -> In y2 ys ->
  c_message_id y1 = c_message_id y2 /\ c_creation_date y1 = c_creation_date y2.
Proof.
  intros H. apply transform_data_Some in H. subst ys.
  intros y1 y2 H1 H2.
  apply in_map_iff in H1 as (x1 & <- & Hx1). apply in_map_iff in H2 as (x2 & <- & Hx2).
  unfold extract_transactions in Hx1, Hx2.
  apply in_map_iff in Hx1 as (t1 & <- & _). apply in_map_iff in Hx2 as (t2 & <- & _).
  unfold extract_one. destruct (read_amount t1), (read_amount t2). simpl. done.
Qed.

(** ** ml_model.py: detect_anomalies, validate_input_data *)

Lemma zip_with_score_s_tx (df : list CanonTx) (sl : list (Q * Z)) :
  length sl = length df ->
  map s_tx (zip_with (fun r sl => score_row r (fst sl) (snd sl)) df sl) = df.
Proof.
  revert sl. induction df as [|r df IH]; intros [|s sl] H; simpl in *; try done.
  f_equal. apply IH. lia.
Qed.

Lemma zip_with_score_flags (df : list CanonTx) (sl : list (Q * Z)) :
  Forall (fun z => (is_anomaly z = 0 \/ is_anomaly z = 1)%Z /\ exists sc, anomaly_score z = PF sc)
    (zip_with (fun r sl => score_row r (fst sl) (snd sl)) df sl).
Proof.
  revert sl. induction df as [|r df IH]; intros [|s sl]; simpl; try constructor; [|apply IH].
  unfold score_row, label_to_flag. simpl. split; [|eauto].
  destruct (Z.eqb (snd s) (-1)); auto.
Qed.

Lemma detect_anomalies_spec dec pred (ys : list CanonTx) (zs : list ScoredTx) :
  detect_anomalies dec pred ys = Some zs ->
  map s_tx zs = ys /\ ys <> [] /\
  Forall (fun z => (is_anomaly z = 0 \/ is_anomaly z = 1)%Z /\ exists sc, anomaly_score z = PF sc) zs.
Proof.
  unfold detect_anomalies. intros H.
  assert (Hgen : forall (df : list CanonTx) (X : list (pyfloat * pyfloat)),
    (if Nat.eqb (length (dec X)) (length df) && Nat.eqb (length (pred X)) (length df)
     then Some (zip_with (fun r sl => score_row r (fst sl) (snd sl)) df (zip (dec X) (pred X)))
     else None) = Some zs ->
    map s_tx zs = df /\
    Forall (fun z => (is_anomaly z = 0 \/ is_anomaly z = 1)%Z /\ exists sc, anomaly_score z = PF sc) zs).
  { intros df X.
    destruct (Nat.eqb (length (dec X)) _) eqn:E1, (Nat.eqb (length (pred X)) _) eqn:E2;
      cbn [andb]; try discriminate.
    intros H'; injection H' as <-. apply Nat.eqb_eq in E1, E2.
    split; [apply zip_with_score_s_tx; rewrite length_zip_with; lia|apply zip_with_score_flags]. }
  destruct ys as [|y r]; [discriminate|].
  destruct (Hgen (y :: r) _ H) as [Hs Hf].
  split; [exact Hs|]. split; [discriminate|exact Hf].
Qed.

(** [detect_anomalies] refuses an empty frame (it has no [amount]
    column); when it succeeds it keeps every input row unchanged and in
    order and gives each an [is_anomaly] flag that is 0 or 1. *)
Theorem detect_anomalies_output dec pred (ys : list CanonTx) (zs : list ScoredTx) :
  detect_anomalies dec pred ys = Some zs ->
  map s_tx zs = ys /\ ys <> [] /\ Forall (fun z => (is_anomaly z = 0 \/ is_anomaly z = 1)%Z) zs.
Proof.
  intros H. apply detect_anomalies_spec in H as (Hs & Hne & Hf).
  split; [exact Hs|]. split; [exact Hne|].
  apply (Forall_impl _ _ _ Hf). intros z [Hz _]. exact Hz.
Qed.

(** The processing step of [main()] (extract, transform, detect) succeeds
    only on a document with at least one [CdtTrfTxInf]; it then yields one
    scored row per [CdtTrfTxInf], in document order, each holding the
    Transformer's record of that transaction. *)
Theorem process_upload_rows to_dt dec pred (root : element) (zs : list ScoredTx) :
  process_upload to_dt dec pred root = Some zs ->
  map s_tx zs = map (transform_row to_dt (map creation_date (extract_transactions root))
                       (map acceptance_datetime (extract_transactions root)))
                    (extract_transactions root) /\
  length zs = length (findall root [Desc (ns "CdtTrfTxInf")]) /\ zs <> [].
Proof.
  unfold process_upload, mbind, option_bind.
  destruct (transform_data to_dt (extract_transactions root)) as [ys|] eqn:Et; [|discriminate].
  intros Hd. apply detect_anomalies_spec in Hd as (Hs & Hne & _).
  apply transform_data_Some in Et. rewrite Hs, Et.
  split; [reflexivity|]. split.
  - rewrite <- (length_map s_tx zs), Hs, Et, length_map. unfold extract_transactions.
    apply length_map.
  - intros ->. apply Hne. rewrite <- Hs. reflexivity.
Qed.

Lemma validate_input_data_ok (cols : list string) (col : list pyval) :
  existsb (String.eqb "amount") cols = true ->
  (validate_input_data cols col = Some tt <-> existsb pd_isna col = false).
Proof.
  intros H. unfold validate_input_data. cbn [List.filter]. rewrite H. cbn [negb].
  destruct (existsb pd_isna col); split; congruence.
Qed.

Lemma existsb_isna_amounts (l : list RawTx) :
  existsb pd_isna (map (fun x => VFloat (pf_abs (to_float64 (amount x)))) l) = false <->
  Forall (fun x => exists f, amount x = Some f /\ f <> PNaN) l.
Proof.
  induction l as [|x l IH]; simpl.
  - split; [constructor|reflexivity].
  - rewrite orb_false_iff, IH, Forall_cons_iff.
    assert (Hc : pd_isna (VFloat (pf_abs (to_float64 (amount x)))) = false <->
                 exists f, amount x = Some f /\ f <> PNaN).
    { destruct (amount x) as [[q| |]|]; simpl; split; try discriminate; eauto;
        try (intros (f & Hf & Hn); injection Hf as <-; done);
        intros (f & Hf & _); discriminate. }
    rewrite Hc. reflexivity.
Qed.

(** [validate_input_data] accepts the frame returned by [transform_data]
    exactly when the input list is non-empty and every transaction has an
    amount that is neither missing nor NaN. *)
Theorem validate_transformed to_dt (xs : list RawTx) (ys : list CanonTx) :
  transform_data to_dt xs = Some ys ->
  (validate_input_data (transform_columns ys) (map (fun y => VFloat (c_amount y)) ys) = Some tt <->
   xs <> [] /\ Forall (fun x => exists f, amount x = Some f /\ f <> PNaN) xs).
Proof.
  intros H. apply transform_data_Some in H. subst ys.
  destruct xs as [|x r].
  - simpl. split; [discriminate|]. intros [[] _]. reflexivity.
  - rewrite validate_input_data_ok by reflexivity.
    rewrite map_map. cbn [transform_row c_amount].
    rewrite existsb_isna_amounts. split; [intros H; split; [discriminate|exact H]|tauto].
Qed.

(** ** ml_model.py: explain_anomalies *)

Lemma pf_le_refl (a : pyfloat) : pf_le a a = true.
Proof. destruct a as [q|[]|]; simpl; try done. apply Qle_bool_iff, Qle_refl. Qed.

Lemma fold_max_spec (vs : list pyfloat) (m : pyfloat) :
  let R := fold_left (fun m x => if pf_le m x then x else m) vs m in
  pf_le m R = true /\ Forall (fun x => pf_le x R = true) vs /\ In R (m :: vs).
Proof.
  revert m. induction vs as [|x vs IH]; intros m; simpl.
  - split; [apply pf_le_refl|]. split; [constructor|now left].
  - destruct (IH (if pf_le m x then x else m)) as (H1 & H2 & H3).
    set (R := fold_left _ vs _) in *.
    destruct (pf_le m x) eqn:E.
    + split; [exact (pf_le_trans _ _ _ E H1)|]. split; [constructor; done|].
      simpl in H3. tauto.
    + split; [exact H1|]. split; [constructor; [|done]|simpl in H3; tauto].
      destruct (pf_le_total x m) as [Hx|Hx]; [|congruence]. exact (pf_le_trans _ _ _ Hx H1).
Qed.

Lemma fold_min_spec (vs : list pyfloat) (m : pyfloat) :
  let R := fold_left (fun m x => if pf_le x m then x else m) vs m in
  pf_le R m = true /\ Forall (fun x => pf_le R x = true) vs /\ In R (m :: vs).
Proof.
  revert m. induction vs as [|x vs IH]; intros m; simpl.
  - split; [apply pf_le_refl|]. split; [constructor|now left].
  - destruct (IH (if pf_le x m then x else m)) as (H1 & H2 & H3).
    set (R := fold_left _ vs _) in *.
    destruct (pf_le x m) eqn:E.
    + split; [exact (pf_le_trans _ _ _ H1 E)|]. split; [constructor; done|].
      simpl in H3. tauto.
    + split; [exact H1|]. split; [constructor; [|done]|simpl in H3; tauto].
      destruct (pf_le_total x m) as [Hx|Hx]; [congruence|]. exact (pf_le_trans _ _ _ H1 Hx).
Qed.

Lemma pf_max_spec (xs : list pyfloat) :
  (forall x, In x xs -> pf_isnan x = false -> pf_le x (pf_max xs) = true) /\
  ((pf_max xs = PNaN /\ forall x, In x xs -> pf_isnan x = true) \/
   (In (pf_max xs) xs /\ pf_isnan (pf_max xs) = false)).
Proof.
  unfold pf_max. destruct (List.filter _ xs) as [|v vs] eqn:E.
  - split.
    + intros x Hx Hn. assert (Hf : In x (List.filter (fun x => negb (pf_isnan x)) xs))
        by (apply filter_In; rewrite Hn; auto). rewrite E in Hf. done.
    + left. split; [done|]. intros x Hx. destruct (pf_isnan x) eqn:Hn; [done|].
      assert (Hf : In x (List.filter (fun x => negb (pf_isnan x)) xs))
        by (apply filter_In; rewrite Hn; auto). rewrite E in Hf. done.
  - destruct (fold_max_spec vs v) as (H1 & H2 & H3).
    assert (Hin : forall y, In y (v :: vs) -> In y xs /\ pf_isnan y = false).
    { intros y Hy. rewrite <- E in Hy. apply filter_In in Hy as [Hy Hn].
      split; [done|]. by destruct (pf_isnan y). }
    split.
    + intros x Hx Hn. assert (Hf : In x (v :: vs))
        by (rewrite <- E; apply filter_In; rewrite Hn; auto).
      destruct Hf as [<-|Hf]; [exact H1|]. exact (proj1 (List.Forall_forall _ _) H2 x Hf).
    + right. exact (Hin _ H3).
Qed.

Lemma pf_min_spec (xs : list pyfloat) :
  (forall x, In x xs -> pf_isnan x = false -> pf_le (pf_min xs) x = true) /\
  ((pf_min xs = PNaN /\ forall x, In x xs -> pf_isnan x = true) \/
   (In (pf_min xs) xs /\ pf_isnan (pf_min xs) = false)).
Proof.
  unfold pf_min. destruct (List.filter _ xs) as [|v vs] eqn:E.
  - split.
    + intros x Hx Hn. assert (Hf : In x (List.filter (fun x => negb (pf_isnan x)) xs))
        by (apply filter_In; rewrite Hn; auto). rewrite E in Hf. done.
    + left. split; [done|]. intros x Hx. destruct (pf_isnan x) eqn:Hn; [done|].
      assert (Hf : In x (List.filter (fun x => negb (pf_isnan x)) xs))
        by (apply filter_In; rewrite Hn; auto). rewrite E in Hf. done.
  - destruct (fold_min_spec vs v) as (H1 & H2 & H3).
    assert (Hin : forall y, In y (v :: vs) -> In y xs /\ pf_isnan y = false).
    { intros y Hy. rewrite <- E in Hy. apply filter_In in Hy as [Hy Hn].
      split; [done|]. by destruct (pf_isnan y). }
    split.
    + intros x Hx Hn. assert (Hf : In x (v :: vs))
        by (rewrite <- E; apply filter_In; rewrite Hn; auto).
      destruct Hf as [<-|Hf]; [exact H1|]. exact (proj1 (List.Forall_forall _ _) H2 x Hf).
    + right. exact (Hin _ H3).
Qed.

Lemma flagged_rows_snd_gen (k : nat) (rows : list ScoredTx) :
  map snd (List.filter (fun r => Z.eqb (is_anomaly (snd r)) 1) (combine (seq k (length rows)) rows)) =
  List.filter (fun r => Z.eqb (is_anomaly r) 1) rows.
Proof.
  revert k. induction rows as [|r rows IH]; intros k; simpl; [done|].
  destruct (Z.eqb (is_anomaly r) 1); simpl; by rewrite IH.
Qed.

Lemma flagged_rows_snd (rows : list ScoredTx) :
  map snd (flagged_rows rows) = List.filter (fun r => Z.eqb (is_anomaly r) 1) rows.
Proof. apply flagged_rows_snd_gen. Qed.

Lemma explain_report_inv tie_rank (df : RFrame) cnt mean mx mn top :
  explain_anomalies tie_rank df = RReport cnt mean mx mn top ->
  exists fl, flagged_rows (rf_rows df) = fl /\ fl <> [] /\ cnt = length fl /\
    mx = pf_max (map row_amount fl) /\
    mn = pf_min (map (fun r => anomaly_score (snd r)) fl) /\
    top = map snd (nlargest tie_rank 5 fl).
Proof.
  unfold explain_anomalies.
  destruct (List.filter _ required_cols) as [|c cs]; [|discriminate].
  destruct (flagged_rows (rf_rows df)) as [|p ps] eqn:E; [discriminate|].
  intros H. injection H as <- <- <- <- <-. exists (p :: ps). done.
Qed.

Lemma in_flagged_amount (rows : list ScoredTx) (x : pyfloat) :
  In x (map row_amount (flagged_rows rows)) <->
  exists r, In r rows /\ is_anomaly r = 1%Z /\ c_amount (s_tx r) = x.
Proof.
  unfold row_amount. rewrite <- (map_map snd (fun r => c_amount (s_tx r))), flagged_rows_snd.
  rewrite in_map_iff. split.
  - intros (r & <- & Hr). apply filter_In in Hr as [Hr Ha]. apply Z.eqb_eq in Ha. eauto.
  - intros (r & Hr & Ha & <-). exists r. split; [done|]. apply filter_In. split; [done|].
    by apply Z.eqb_eq.
Qed.

Lemma in_flagged_score (rows : list ScoredTx) (x : pyfloat) :
  In x (map (fun r => anomaly_score (snd r)) (flagged_rows rows)) <->
  exists r, In r rows /\ is_anomaly r = 1%Z /\ anomaly_score r = x.
Proof.
  rewrite <- (map_map snd anomaly_score), flagged_rows_snd.
  rewrite in_map_iff. split.
  - intros (r & <- & Hr). apply filter_In in Hr as [Hr Ha]. apply Z.eqb_eq in Ha. eauto.
  - intros (r & Hr & Ha & <-). exists r. split; [done|]. apply filter_In. split; [done|].
    by apply Z.eqb_eq.
Qed.

(** In a report of [explain_anomalies], [count] is the number of rows with
    [is_anomaly == 1] and is positive; [max_amount] is at least every
    non-NaN flagged amount and is one of them (NaN only when every flagged
    amount is NaN); [min_score] is at most every non-NaN flagged score and
    is one of them (NaN only when every flagged score is NaN). *)
Theorem explain_report_stats tie_rank (df : RFrame) cnt mean mx mn top :
  explain_anomalies tie_rank df = RReport cnt mean mx mn top ->
  cnt = length (List.filter (fun r => Z.eqb (is_anomaly r) 1) (rf_rows df)) /\ (0 < cnt)%nat /\
  (forall r, In r (rf_rows df) -> is_anomaly r = 1%Z -> pf_isnan (c_amount (s_tx r)) = false ->
     pf_le (c_amount (s_tx r)) mx = true) /\
  ((mx = PNaN /\ forall r, In r (rf_rows df) -> is_anomaly r = 1%Z -> pf_isnan (c_amount (s_tx r)) = true) \/
   (exists r, In r (rf_rows df) /\ is_anomaly r = 1%Z /\ c_amount (s_tx r) = mx)) /\
  (forall r, In r (rf_rows df) -> is_anomaly r = 1%Z -> pf_isnan (anomaly_score r) = false ->
     pf_le mn (anomaly_score r) = true) /\
  ((mn = PNaN /\ forall r, In r (rf_rows df) -> is_anomaly r = 1%Z -> pf_isnan (anomaly_score r) = true) \/
   (exists r, In r (rf_rows df) /\ is_anomaly r = 1%Z /\ anomaly_score r = mn)).
Proof.
  intros H. apply explain_report_inv in H as (fl & Hfl & Hne & -> & -> & -> & _).
  subst fl.
  split; [by rewrite <- flagged_rows_snd, length_map|].
  split; [destruct (flagged_rows (rf_rows df)); [done|simpl; lia]|].
  destruct (pf_max_spec (map row_amount (flagged_rows (rf_rows df)))) as [M1 M2].
  destruct (pf_min_spec (map (fun r => anomaly_score (snd r)) (flagged_rows (rf_rows df)))) as [N1 N2].
  split; [|split; [|split]].
  - intros r Hr Ha Hn. apply M1; [|done]. apply in_flagged_amount. eauto.
  - destruct M2 as [[Hm Hall]|[Hm _]].
    + left. split; [done|]. intros r Hr Ha. apply Hall, in_flagged_amount. eauto.
    + right. by apply in_flagged_amount in Hm.
  - intros r Hr Ha Hn. apply N1; [|done]. apply in_flagged_score. eauto.
  - destruct N2 as [[Hm Hall]|[Hm _]].
    + left. split; [done|]. intros r Hr Ha. apply Hall, in_flagged_score. eauto.
    + right. by apply in_flagged_score in Hm.
Qed.

(** The [top_anomalies] list of a report holds exactly [min(5, count)]
    rows. *)
Theorem explain_top_length tie_rank (df : RFrame) cnt mean mx mn top :
  explain_anomalies tie_rank df = RReport cnt mean mx mn top -> length top = Nat.min 5 cnt.
Proof.
  intros H. apply explain_report_inv in H as (fl & _ & _ & -> & _ & _ & ->).
  by rewrite length_map, length_nlargest.
Qed.

(** ** main.py: show_anomaly_report, show_data_cleaning *)

Lemma scored_frame_all_columns (z : ScoredTx) (zs : list ScoredTx) :
  List.filter (fun c => negb (existsb (String.eqb c) (rf_columns (scored_frame (z :: zs)))))
    required_cols = [].
Proof. reflexivity. Qed.

Lemma count_flagged_rows (rows : list ScoredTx) :
  count_flagged rows = length (flagged_rows rows).
Proof. unfold count_flagged. by rewrite <- flagged_rows_snd, length_map. Qed.

(** On the frame of a successful [detect_anomalies], [show_anomaly_report]
    never shows an error: it shows the statistics panel with the same
    count as the warning banner of [main()] when some row is flagged, and
    the empty-report message when none is. *)
Theorem show_anomaly_report_after_detect tie_rank dec pred (ys : list CanonTx) (zs : list ScoredTx) :
  detect_anomalies dec pred ys = Some zs ->
  (count_flagged zs = 0%nat /\ show_anomaly_report tie_rank (scored_frame zs) = ViewEmpty) \/
  ((0 < count_flagged zs)%nat /\
   exists mean mx mn, show_anomaly_report tie_rank (scored_frame zs) = ViewStats (count_flagged zs) mean mx mn).
Proof.
  intros H. apply detect_anomalies_spec in H as (Hs & Hne & _).
  destruct zs as [|z zs']; [subst ys; done|].
  rewrite count_flagged_rows.
  unfold show_anomaly_report, explain_anomalies.
  rewrite scored_frame_all_columns. cbn [rf_rows scored_frame].
  destruct (flagged_rows (z :: zs')) as [|p ps] eqn:E.
  - left. done.
  - right. split; [simpl; lia|]. cbn [Nat.eqb length]. eauto.
Qed.

Lemma completeness_full (col : list string) :
  col <> [] -> Forall (fun s => s <> "") col ->
  exists c, completeness col = Some c /\ (c == 100)%Q.
Proof.
  intros Hne Hall.
  assert (Hf : List.filter (fun s => negb (String.eqb s "")) col = col).
  { clear Hne. induction Hall as [|s l Hs Hl IH]; simpl; [done|].
    destruct (String.eqb_spec s "") as [E|_]; [done|]. simpl. by rewrite IH. }
  unfold completeness. rewrite Hf.
  destruct col as [|s l]; [done|]. cbn [length].
  eexists. split; [reflexivity|].
  assert (Hn : ~ (inject_Z (Z.of_nat (S (length l))) == 0)%Q).
  { change 0%Q with (inject_Z 0). rewrite inject_Z_injective. lia. }
  field. exact Hn.
Qed.

Lemma fill_blank_nonempty (d : string) (v : option string) :
  is_blank d = false -> fill_blank d v <> "".
Proof. intros Hd E. pose proof (fill_blank_not_blank d v Hd) as H. rewrite E in H. done. Qed.

Lemma anomaly_sum_count (zs : list ScoredTx) :
  Forall (fun z => (is_anomaly z = 0 \/ is_anomaly z = 1)%Z) zs ->
  anomaly_sum zs = Z.of_nat (count_flagged zs).
Proof.
  unfold anomaly_sum, count_flagged. induction 1 as [|z l Hz Hl IH]; simpl; [done|].
  destruct Hz as [E|E]; rewrite E; simpl; rewrite IH; lia.
Qed.

(** On the frame shown after processing, the completeness chart of
    [show_data_cleaning] is always 100% for [debtor_name] and
    [creditor_name] (the Transformer fills them), and the "anomalies
    detected" metric ([df['is_anomaly'].sum()]) equals the number of
    flagged rows. *)
Theorem show_data_cleaning_metrics to_dt dec pred (xs : list RawTx) (ys : list CanonTx) (zs : list ScoredTx) :
  transform_data to_dt xs = Some ys ->
  detect_anomalies dec pred ys = Some zs ->
  (exists c, completeness (map (fun z => c_debtor_name (s_tx z)) zs) = Some c /\ (c == 100)%Q) /\
  (exists c, completeness (map (fun z => c_creditor_name (s_tx z)) zs) = Some c /\ (c == 100)%Q) /\
  anomaly_sum zs = Z.of_nat (count_flagged zs).
Proof.
  intros Ht Hd. apply transform_data_Some in Ht.
  apply detect_anomalies_spec in Hd as (Hs & Hne & Hflags).
  assert (Hzs : zs <> []) by (intros ->; apply Hne; rewrite <- Hs; reflexivity).
  assert (Hnames : forall z, In z zs ->
            c_debtor_name (s_tx z) <> "" /\ c_creditor_name (s_tx z) <> "").
  { intros z Hz. assert (Hy : In (s_tx z) ys) by (rewrite <- Hs; by apply in_map).
    rewrite Ht in Hy. apply in_map_iff in Hy as (x & Hx & _). rewrite <- Hx.
    cbn [transform_row c_debtor_name c_creditor_name].
    split; apply fill_blank_nonempty; reflexivity. }
  split; [|split].
  - apply completeness_full; [by destruct zs|].
    apply List.Forall_forall. intros s Hs'. apply in_map_iff in Hs' as (z & <- & Hz).
    apply Hnames, Hz.
  - apply completeness_full; [by destruct zs|].
    apply List.Forall_forall. intros s Hs'. apply in_map_iff in Hs' as (z & <- & Hz).
    apply Hnames, Hz.
  - apply anomaly_sum_count. eapply Forall_impl; [exact Hflags|]. simpl. tauto.
Qed.

(** ** db_operations.py: save_transactions *)

Lemma proposed_row_id ti now id (p : Params) (ex : PRow) :
  proposed_row ti now id p = Some ex -> p_id ex = id.
Proof. intros H. solve_proposed H. Qed.

Lemma proposed_row_tid ti now id (p : Params) (ex : PRow) :
  proposed_row ti now id p = Some ex -> varchar_in 50 (q_transaction_id p) = Some (p_transaction_id ex).
Proof. intros H. solve_proposed H. Qed.

Lemma proposed_row_ft ti now id (p : Params) (ex : PRow) :
  proposed_row ti now id p = Some ex -> varchar_in 10 (q_file_type p) = Some (p_file_type ex).
Proof. intros H. solve_proposed H. Qed.

Lemma row_params_ft fr tr ft (row : PyRow) (p : Params) :
  row_params fr tr ft row = Some p -> q_file_type p = ft.
Proof.
  unfold row_params, mbind, option_bind. intros H.
  repeat (case_match; simpl in *; try discriminate). by simplify_eq.
Qed.

Lemma row_params_tid fr tr ft (row : PyRow) (p : Params) (v : pyval) :
  row_getitem row "transaction_id" = Some v -> row_params fr tr ft row = Some p ->
  q_transaction_id p = py_str fr tr v.
Proof.
  unfold row_params, mbind, option_bind. intros Hv H. rewrite Hv in H.
  repeat (case_match; simpl in *; try discriminate). by simplify_eq.
Qed.

Lemma row_params_amount fr tr ft (row : PyRow) (p : Params) (f : pyfloat) :
  row_getitem row "amount" = Some (VFloat f) -> row_params fr tr ft row = Some p ->
  q_amount p = f.
Proof.
  unfold row_params, mbind, option_bind. intros Hv H.
  destruct (row_getitem row "transaction_id"); [|discriminate]. rewrite Hv in H.
  repeat (case_match; simpl in *; try discriminate). by simplify_eq.
Qed.

Lemma save_transactions_cases fr tr ti (conn : bool) now (df : list PyRow) xml (db db' : DB) (b : bool) :
  save_transactions fr tr ti conn now df xml db = (b, db') ->
  (b = false /\ db' = db) \/ (b = true /\ exec_rows fr tr ti now (file_type_of xml) df db = Some db').
Proof.
  unfold save_transactions. destruct conn; [|intros H; injection H as <- <-; auto].
  destruct (exec_rows _ _ _ _ _ _ _) eqn:E; intros H; injection H as <- <-; auto.
Qed.


Lemma varchar_file_type (xml : string) :
  varchar_in 10 (file_type_of xml) = Some (file_type_of xml).
Proof. unfold file_type_of. by destruct (str_contains _ _). Qed.

(** After a successful save, every row the save inserted (its key was not
    stored before) carries the file type derived from the document,
    which is always 'PACS.008' or 'PACS.001' and so always passes the
    table's CHECK constraint. *)
Theorem save_file_type fr tr ti (conn : bool) now (df : list PyRow) xml (db db' : DB) :
  save_transactions fr tr ti conn now df xml db = (true, db') ->
  (file_type_of xml = "PACS.008" \/ file_type_of xml = "PACS.001") /\
  (forall k r, tbl db !! k = None -> tbl db' !! k = Some r -> p_file_type r = file_type_of xml).
Proof.
  intros Hs. split; [unfold file_type_of; destruct (str_contains _ _); auto|].
  apply save_transactions_true in Hs as [_ He].
  intros k r H0 Hr.
  refine (exec_rows_new_rows fr tr ti now (file_type_of xml)
            (fun r => p_file_type r = file_type_of xml) df db db db' _ _ _ He k r Hr H0).
  - intros row p id ex _ Ep Hex. apply proposed_row_ft in Hex.
    rewrite (row_params_ft _ _ _ _ _ Ep), varchar_file_type in Hex. by injection Hex.
  - intros ex old _ Ho. exact Ho.
  - intros k' r' Hr' H0'. congruence.
Qed.

Lemma upsert_lookup ti now (p : Params) (db db' : DB) :
  upsert ti now p db = Some db' ->
  next_id db' = (next_id db + 1)%Z /\
  exists key, forall k r, tbl db' !! k = Some r ->
    (exists r', tbl db !! k = Some r' /\ p_id r = p_id r' /\ p_transaction_id r = p_transaction_id r') \/
    (k = key /\ tbl db !! k = None /\ p_id r = next_id db /\ p_transaction_id r = k).
Proof.
  unfold upsert, mbind, option_bind.
  destruct (proposed_row ti now (next_id db) p) as [ex|] eqn:Hex; [|discriminate].
  intros H; injection H as <-. split; [reflexivity|].
  exists (p_transaction_id ex). intros k r Hr. simpl in Hr.
  destruct (String.eq_dec k (p_transaction_id ex)) as [->|Hk].
  - destruct (tbl db !! p_transaction_id ex) as [old|] eqn:Eo;
      rewrite lookup_insert_eq in Hr; injection Hr as <-.
    + left. exists old. done.
    + right. split; [done|]. split; [done|]. split; [exact (proposed_row_id _ _ _ _ _ Hex)|done].
  - left. exists r. split; [|done].
    destruct (tbl db !! p_transaction_id ex); rewrite lookup_insert_ne in Hr; congruence.
Qed.

Lemma upsert_wf ti now (p : Params) (db db' : DB) :
  table_wf db -> upsert ti now p db = Some db' -> table_wf db'.
Proof.
  intros [W1 W2] Hu. destruct (upsert_lookup _ _ _ _ _ Hu) as (Hn & key & L).
  split.
  - intros k r Hr. rewrite Hn.
    destruct (L k r Hr) as [(r' & Hr' & Hi & Ht)|(_ & _ & Hi & Ht)].
    + destruct (W1 k r' Hr') as [Ht' Hl]. split; [congruence|lia].
    + split; [done|lia].
  - intros k1 k2 r1 r2 H1 H2 Hi.
    destruct (L k1 r1 H1) as [(s1 & Hs1 & Hi1 & _)|(E1 & _ & Hi1 & _)],
             (L k2 r2 H2) as [(s2 & Hs2 & Hi2 & _)|(E2 & _ & Hi2 & _)].
    + apply (W2 k1 k2 s1 s2 Hs1 Hs2). congruence.
    + destruct (W1 k1 s1 Hs1) as [_ Hl]. lia.
    + destruct (W1 k2 s2 Hs2) as [_ Hl]. lia.
    + congruence.
Qed.

(** [save_transactions] keeps the table well formed: if every stored row
    sits under its own [transaction_id] with an [id] below the next
    [SERIAL] value and no two stored rows share an [id], the same holds
    after the call, whether it commits or rolls back. *)
Theorem save_keeps_table_wf fr tr ti (conn : bool) now (df : list PyRow) xml (db db' : DB) (b : bool) :
  table_wf db ->
  save_transactions fr tr ti conn now df xml db = (b, db') ->
  table_wf db'.
Proof.
  intros Hw Hs. apply save_transactions_cases in Hs as [[_ ->]|[_ He]]; [exact Hw|].
  revert db Hw He. generalize (file_type_of xml) as ft.
  induction df as [|row rest IH]; intros ft db Hw He; simpl in He.
  - by injection He as <-.
  - destruct (row_params fr tr ft row) as [p|]; [|discriminate].
    destruct (upsert ti now p db) as [db1|] eqn:Eu; [|discriminate].
    exact (IH ft db1 (upsert_wf _ _ _ _ _ Hw Eu) He).
Qed.

(** After a successful save, a key written by the batch holds the amount
    and account identifiers of the batch's last row with that key and the
    save time as [processing_date]; every key the batch does not write is
    left as it was. *)
Theorem save_last_row_wins fr tr ti (conn : bool) now (df : list PyRow) xml (db db' : DB) :
  save_transactions fr tr ti conn now df xml db = (true, db') ->
  forall k,
    match last_write fr tr ti (file_type_of xml) df k with
    | None => tbl db' !! k = tbl db !! k
    | Some m => exists r, tbl db' !! k = Some r /\ mutable_of r = m /\ p_processing_date r = now
    end.
Proof.
  intros Hs. apply save_transactions_true in Hs as [_ He]. exact (exec_rows_last _ _ _ _ _ _ _ _ He).
Qed.

Lemma exec_rows_keys fr tr ti now ft (df : list PyRow) (db db' : DB) (row : PyRow) :
  exec_rows fr tr ti now ft df db = Some db' -> In row df ->
  exists p k r, row_params fr tr ft row = Some p /\ varchar_in 50 (q_transaction_id p) = Some k /\
    tbl db' !! k = Some r.
Proof.
  revert db. induction df as [|row' rest IH]; intros db H Hin; [done|]. simpl in H.
  destruct (row_params fr tr ft row') as [p|] eqn:Ep; [|discriminate].
  destruct (upsert ti now p db) as [db1|] eqn:Eu; [|discriminate].
  destruct Hin as [<-|Hin]; [|exact (IH db1 H Hin)].
  destruct (upsert_spec _ _ _ _ _ Eu) as (ex & Hex & Htbl).
  assert (H1 : exists r1, tbl db1 !! p_transaction_id ex = Some r1).
  { rewrite Htbl. destruct (tbl db !! p_transaction_id ex); rewrite lookup_insert_eq; eauto. }
  destruct H1 as (r1 & Hr1).
  destruct (exec_rows_frozen _ _ _ _ _ _ _ _ H _ _ Hr1) as (r & Hr & _).
  exists p, (p_transaction_id ex), r. split; [done|]. split; [|done].
  exact (proposed_row_tid _ _ _ _ _ Hex).
Qed.

(** After a successful save, every row of the batch is stored under the
    key [str(row['transaction_id'])] (as [VARCHAR(50)] accepts it); in
    particular all rows whose [transaction_id] is [None] are stored under
    the one key 'None'. *)
Theorem save_rows_stored fr tr ti (conn : bool) now (df : list PyRow) xml (db db' : DB) :
  save_transactions fr tr ti conn now df xml db = (true, db') ->
  (forall row v, In row df -> row_getitem row "transaction_id" = Some v ->
     exists k r, varchar_in 50 (py_str fr tr v) = Some k /\ tbl db' !! k = Some r) /\
  (forall row, In row df -> row_getitem row "transaction_id" = Some VNone ->
     exists r, tbl db' !! "None" = Some r).
Proof.
  intros Hs. apply save_transactions_true in Hs as [_ He].
  assert (G : forall row v, In row df -> row_getitem row "transaction_id" = Some v ->
     exists k r, varchar_in 50 (py_str fr tr v) = Some k /\ tbl db' !! k = Some r).
  { intros row v Hin Hv.
    destruct (exec_rows_keys _ _ _ _ _ _ _ _ row He Hin) as (p & k & r & Ep & Hk & Hr).
    rewrite (row_params_tid _ _ _ _ _ _ Hv Ep) in Hk. eauto. }
  split; [exact G|].
  intros row Hin Hv. destruct (G row VNone Hin Hv) as (k & r & Hk & Hr).
  simpl in Hk. injection Hk as <-. eauto.
Qed.

Lemma exec_rows_row_fails fr tr ti now ft (df : list PyRow) (db : DB) (row : PyRow) :
  In row df ->
  (forall p, row_params fr tr ft row = Some p -> forall now' id, proposed_row ti now' id p = None) ->
  exec_rows fr tr ti now ft df db = None.
Proof.
  revert db. induction df as [|row' rest IH]; intros db Hin Hbad; [done|]. simpl.
  destruct Hin as [->|Hin].
  - destruct (row_params fr tr ft row) as [p|] eqn:Ep; [|reflexivity].
    unfold upsert, mbind, option_bind. by rewrite (Hbad p eq_refl now (next_id db)).
  - destruct (row_params fr tr ft row'); [|reflexivity].
    destruct (upsert ti now p db); [|reflexivity]. exact (IH _ Hin Hbad).
Qed.

Lemma numeric_in_overflow (q : Q) :
  (10 ^ 13 <= Qabs q)%Q -> numeric_in 15 2 (PF q) = None.
Proof.
  intros Hq. unfold numeric_in. cbv zeta.
  change (inject_Z (10 ^ 2)) with 100%Q.
  assert (Hb : (10 ^ 15 <= Z.abs (round_half_away (q * 100)))%Z).
  { unfold round_half_away. destruct (Qle_bool 0 (q * 100)) eqn:E.
    - apply Qle_bool_iff in E.
      assert (Hp : (0 <= q)%Q) by Lqa.lra.
      rewrite (Qabs_pos q Hp) in Hq.
      assert (Hf : (10 ^ 15 <= Qfloor (q * 100 + (1 # 2)))%Z).
      { rewrite <- (Qfloor_Z (10 ^ 15)). apply Qfloor_resp_le.
        change (inject_Z (10 ^ 15)) with (10 ^ 15)%Q. simpl in Hq |- *. Lqa.lra. }
      lia.
    - assert (Hn : (q <= 0)%Q).
      { destruct (Qlt_le_dec 0 q) as [Hlt|Hle]; [|exact Hle].
        assert (Hc : Qle_bool 0 (q * 100) = true) by (apply Qle_bool_iff; Lqa.lra).
        congruence. }
      rewrite (Qabs_neg q Hn) in Hq.
      assert (Hf : (10 ^ 15 <= Qfloor (- (q * 100) + (1 # 2)))%Z).
      { rewrite <- (Qfloor_Z (10 ^ 15)). apply Qfloor_resp_le.
        change (inject_Z (10 ^ 15)) with (10 ^ 15)%Q. simpl in Hq |- *. Lqa.lra. }
      lia. }
  destruct (Z.ltb_spec (Z.abs (round_half_away (q * 100))) (10 ^ 15)) as [Hl|]; [|reflexivity].
  exfalso. lia.
Qed.

(** A batch holding one row whose amount is infinite or has an absolute
    value of at least 10^13 (more than the 13 integer digits of
    [DECIMAL(15, 2)]) is not saved: [save_transactions] returns [False]
    and the store is unchanged. *)
Theorem save_amount_overflow fr tr ti (conn : bool) now (df : list PyRow) xml (db : DB)
    (row : PyRow) (f : pyfloat) :
  In row df -> row_getitem row "amount" = Some (VFloat f) ->
  (f = PInf true \/ f = PInf false \/ exists q, f = PF q /\ (10 ^ 13 <= Qabs q)%Q) ->
  save_transactions fr tr ti conn now df xml db = (false, db).
Proof.
  intros Hin Ha Hf. unfold save_transactions. destruct conn; [|reflexivity].
  rewrite (exec_rows_row_fails _ _ _ _ _ _ _ row Hin); [reflexivity|].
  intros p Ep now' id. pose proof (row_params_amount _ _ _ _ _ _ Ha Ep) as Hq.
  assert (Hn : numeric_in 15 2 (q_amount p) = None).
  { rewrite Hq. destruct Hf as [->|[->|(q & -> & Hq')]]; [reflexivity|reflexivity|].
    exact (numeric_in_overflow q Hq'). }
  unfold proposed_row, mbind, option_bind.
  destruct (varchar_in 50 (q_transaction_id p)); [|reflexivity]. by rewrite Hn.
Qed.

(** ** Instances of the properties above *)

Lemma get_text_stripped_witness :
  get_text (Some doc_good) [Desc (ns "GrpHdr"); Child (ns "MsgId")] = Some "M1" /\
  py_strip "M1" = "M1" /\
  get_account_id (Some acct_padded) = Some "MA64" /\ "MA64" <> "" /\ py_strip "MA64" = "MA64".
Proof.
  split; [reflexivity|]. split.
  - apply (proj1 (get_text_stripped (Some doc_good) [Desc (ns "GrpHdr"); Child (ns "MsgId")]
                    "M1" (Some acct_padded) "MA64")).
    reflexivity.
  - split; [reflexivity|].
    apply (proj2 (get_text_stripped (Some doc_good) [Desc (ns "GrpHdr"); Child (ns "MsgId")]
                    "M1" (Some acct_padded) "MA64")).
    reflexivity.
Defined.

Lemma transform_shared_header_witness :
  exists ys,
    transform_data no_dates (extract_transactions doc_good) = Some ys /\ length ys = 2%nat /\
    forall y1 y2, In y1 ys -> In y2 ys ->
      c_message_id y1 = c_message_id y2 /\ c_creation_date y1 = c_creation_date y2.
Proof.
  eexists; split; [reflexivity|]. split; [reflexivity|].
  apply (transform_shared_header no_dates doc_good). reflexivity.
Defined.

Lemma detect_anomalies_output_witness :
  exists ys zs,
    transform_data no_dates (extract_transactions doc_good) = Some ys /\
    detect_anomalies flag_all_dec flag_all_pred ys = Some zs /\
    map s_tx zs = ys /\ ys <> [] /\ Forall (fun z => (is_anomaly z = 0 \/ is_anomaly z = 1)%Z) zs.
Proof.
  eexists; eexists; split; [reflexivity|]. split; [reflexivity|].
  apply (detect_anomalies_output flag_all_dec flag_all_pred). reflexivity.
Defined.

Lemma process_upload_rows_witness :
  exists zs,
    process_upload no_dates flag_all_dec flag_all_pred doc_good = Some zs /\
    map s_tx zs = map (transform_row no_dates (map creation_date (extract_transactions doc_good))
                         (map acceptance_datetime (extract_transactions doc_good)))
                      (extract_transactions doc_good) /\
    length zs = length (findall doc_good [Desc (ns "CdtTrfTxInf")]) /\ zs <> [].
Proof.
  eexists; split; [reflexivity|].
  apply (process_upload_rows no_dates flag_all_dec flag_all_pred doc_good).
  reflexivity.
Defined.

Lemma validate_transformed_witness :
  exists ys,
    transform_data no_dates [raw_with_amount (Some (PF 3)); raw_with_amount None] = Some ys /\
    validate_input_data (transform_columns ys) (map (fun y => VFloat (c_amount y)) ys) = None /\
    (validate_input_data (transform_columns ys) (map (fun y => VFloat (c_amount y)) ys) = Some tt <->
     [raw_with_amount (Some (PF 3)); raw_with_amount None] <> [] /\
     Forall (fun x => exists f, amount x = Some f /\ f <> PNaN)
       [raw_with_amount (Some (PF 3)); raw_with_amount None]).
Proof.
  eexists; split; [reflexivity|]. split; [reflexivity|].
  apply (validate_transformed no_dates). reflexivity.
Defined.

Lemma explain_report_stats_witness :
  exists cnt mean mx mn top,
    explain_anomalies tie_index
      (mkRFrame required_cols [scored_sample 5 1; scored_sample 9 0; scored_sample 7 1])
      = RReport cnt mean mx mn top /\
    cnt = length (List.filter (fun r => Z.eqb (is_anomaly r) 1)
                   [scored_sample 5 1; scored_sample 9 0; scored_sample 7 1]) /\ (0 < cnt)%nat /\
    (forall r, In r [scored_sample 5 1; scored_sample 9 0; scored_sample 7 1] -> is_anomaly r = 1%Z ->
       pf_isnan (c_amount (s_tx r)) = false -> pf_le (c_amount (s_tx r)) mx = true) /\
    ((mx = PNaN /\ forall r, In r [scored_sample 5 1; scored_sample 9 0; scored_sample 7 1] ->
        is_anomaly r = 1%Z -> pf_isnan (c_amount (s_tx r)) = true) \/
     (exists r, In r [scored_sample 5 1; scored_sample 9 0; scored_sample 7 1] /\
        is_anomaly r = 1%Z /\ c_amount (s_tx r) = mx)) /\
    (forall r, In r [scored_sample 5 1; scored_sample 9 0; scored_sample 7 1] -> is_anomaly r = 1%Z ->
       pf_isnan (anomaly_score r) = false -> pf_le mn (anomaly_score r) = true) /\
    ((mn = PNaN /\ forall r, In r [scored_sample 5 1; scored_sample 9 0; scored_sample 7 1] ->
        is_anomaly r = 1%Z -> pf_isnan (anomaly_score r) = true) \/
     (exists r, In r [scored_sample 5 1; scored_sample 9 0; scored_sample 7 1] /\
        is_anomaly r = 1%Z /\ anomaly_score r = mn)).
Proof.
  do 5 eexists; split; [reflexivity|].
  eapply (explain_report_stats tie_index
           (mkRFrame required_cols [scored_sample 5 1; scored_sample 9 0; scored_sample 7 1])).
  reflexivity.
Defined.

Lemma explain_top_length_witness :
  exists cnt mean mx mn top,
    explain_anomalies tie_index (mkRFrame required_cols
      [scored_sample 5 1; scored_sample 9 0; scored_sample 7 1; scored_sample 1 1; scored_sample 2 1;
       scored_sample 3 1; scored_sample 4 1])
      = RReport cnt mean mx mn top /\ cnt = 6%nat /\ length top = Nat.min 5 cnt.
Proof.
  do 5 eexists; split; [reflexivity|]. split; [reflexivity|].
  eapply (explain_top_length tie_index (mkRFrame required_cols
      [scored_sample 5 1; scored_sample 9 0; scored_sample 7 1; scored_sample 1 1; scored_sample 2 1;
       scored_sample 3 1; scored_sample 4 1])).
  reflexivity.
Defined.

Lemma show_anomaly_report_after_detect_witness :
  exists ys zs,
    transform_data no_dates (extract_transactions doc_good) = Some ys /\
    detect_anomalies flag_all_dec flag_all_pred ys = Some zs /\
    ((count_flagged zs = 0%nat /\ show_anomaly_report tie_index (scored_frame zs) = ViewEmpty) \/
     ((0 < count_flagged zs)%nat /\
      exists mean mx mn,
        show_anomaly_report tie_index (scored_frame zs) = ViewStats (count_flagged zs) mean mx mn)).
Proof.
  pose (ys := map (transform_row no_dates (map creation_date (extract_transactions doc_good))
                                 (map acceptance_datetime (extract_transactions doc_good)))
                  (extract_transactions doc_good)).
  exists ys. eexists. split; [reflexivity|]. split; [reflexivity|].
  apply (show_anomaly_report_after_detect tie_index flag_all_dec flag_all_pred ys). reflexivity.
Defined.

Lemma show_data_cleaning_metrics_witness :
  exists ys zs,
    transform_data no_dates (extract_transactions doc_good) = Some ys /\
    detect_anomalies flag_all_dec flag_all_pred ys = Some zs /\
    (exists c, completeness (map (fun z => c_debtor_name (s_tx z)) zs) = Some c /\ (c == 100)%Q) /\
    (exists c, completeness (map (fun z => c_creditor_name (s_tx z)) zs) = Some c /\ (c == 100)%Q) /\
    anomaly_sum zs = Z.of_nat (count_flagged zs).
Proof.
  pose (ys := map (transform_row no_dates (map creation_date (extract_transactions doc_good))
                                 (map acceptance_datetime (extract_transactions doc_good)))
                  (extract_transactions doc_good)).
  exists ys. eexists. split; [reflexivity|]. split; [reflexivity|].
  apply (show_data_cleaning_metrics no_dates flag_all_dec flag_all_pred
           (extract_transactions doc_good) ys); reflexivity.
Defined.

Lemma save_file_type_witness :
  exists db',
    save_transactions sample_float_repr sample_ts_repr sample_timestamp_in true default_ts
      c3_batch "<pacs.001/>" empty_db = (true, db') /\
    (file_type_of "<pacs.001/>" = "PACS.008" \/ file_type_of "<pacs.001/>" = "PACS.001") /\
    (forall k r, tbl empty_db !! k = None -> tbl db' !! k = Some r ->
       p_file_type r = file_type_of "<pacs.001/>").
Proof.
  eexists; split; [reflexivity|].
  apply (save_file_type sample_float_repr sample_ts_repr sample_timestamp_in true default_ts
           c3_batch "<pacs.001/>" empty_db). reflexivity.
Defined.

Lemma save_keeps_table_wf_witness :
  table_wf empty_db /\
  exists db',
    save_transactions sample_float_repr sample_ts_repr sample_timestamp_in true default_ts
      c3_batch "<pacs.008/>" empty_db = (true, db') /\ table_wf db'.
Proof.
  assert (Hw : table_wf empty_db).
  { split; intros k; simpl; [intros r H|intros k2 r1 r2 H]; rewrite lookup_empty in H; discriminate. }
  split; [exact Hw|]. eexists; split; [reflexivity|].
  apply (save_keeps_table_wf sample_float_repr sample_ts_repr sample_timestamp_in true default_ts
           c3_batch "<pacs.008/>" empty_db _ true Hw). reflexivity.
Defined.

Lemma save_last_row_wins_witness :
  exists db',
    save_transactions sample_float_repr sample_ts_repr sample_timestamp_in true default_ts
      c3_batch "<pacs.008/>" empty_db = (true, db') /\
    forall k,
      match last_write sample_float_repr sample_ts_repr sample_timestamp_in
              (file_type_of "<pacs.008/>") c3_batch k with
      | None => tbl db' !! k = tbl empty_db !! k
      | Some m => exists r, tbl db' !! k = Some r /\ mutable_of r = m /\ p_processing_date r = default_ts
      end.
Proof.
  eexists; split; [reflexivity|].
  apply (save_last_row_wins sample_float_repr sample_ts_repr sample_timestamp_in true default_ts
           c3_batch "<pacs.008/>" empty_db). reflexivity.
Defined.

Lemma save_rows_stored_witness :
  exists db',
    save_transactions sample_float_repr sample_ts_repr sample_timestamp_in true default_ts
      [none_id_row 12; none_id_row 40] "<pacs.008/>" empty_db = (true, db') /\
    exists r, tbl db' !! "None" = Some r.
Proof.
  eexists; split; [reflexivity|].
  apply (proj2 (save_rows_stored sample_float_repr sample_ts_repr sample_timestamp_in true default_ts
                  [none_id_row 12; none_id_row 40] "<pacs.008/>" empty_db _ eq_refl)
           (none_id_row 40)).
  - right; left; reflexivity.
  - reflexivity.
Defined.

Lemma save_amount_overflow_witness :
  save_transactions sample_float_repr sample_ts_repr sample_timestamp_in true default_ts
    overflow_batch "<pacs.008/>" empty_db = (false, empty_db).
Proof.
  apply (save_amount_overflow sample_float_repr sample_ts_repr sample_timestamp_in true default_ts
           overflow_batch "<pacs.008/>" empty_db (unscored_row "T2" (inject_Z (10 ^ 13)) "MAD")
           (PF (inject_Z (10 ^ 13)))).
  - right; left; reflexivity.
  - reflexivity.
  - right; right. exists (inject_Z (10 ^ 13)). split; [reflexivity|].
    apply Qle_bool_iff. reflexivity.
Defined.
